(** * A verification model of [app.js]

    The program is a single Node.js script: an HTTP request handler with
    four route variants, a SIGTERM handler that shuts the server down, and
    a self-test mode that runs the server against itself.

    The script is embedded shallowly.  JavaScript values are an inductive
    type, the handler is a computation in a state-and-exception monad over
    the part of the world it reads and writes (clock, process counters,
    console), and the process as a whole is an event loop: a state record,
    the callbacks of the script as monadic computations, and a function
    delivering one event of the runtime at a time.

    What the script calls but does not define ([url.parse],
    [Date.prototype.toISOString], [JSON.stringify], [JSON.parse], the
    rendering of numbers, the reading of a port by [server.listen]) is an
    interface, [NodeLib]; the theorems about the script hold for every
    implementation of it.  [Ref] implements it, to run the model on
    concrete requests and events.

    The file has the model first (values, computations, the library, the
    handler, the process and its event loop, the reference library), then
    the notions the properties are stated with, then the properties: the
    routes, what decides a response, shutdown, the port, the self-test. *)

From Stdlib Require Import Ascii ZArith QArith Qcanon DecimalString.
From stdpp Require Import base strings gmap list numbers.

Set Warnings "-register-all".
Local Open Scope string_scope.
Local Open Scope list_scope.
Local Open Scope Z_scope.

(** ** JavaScript values *)

Module JS.

(** Numbers are rationals in canonical form: the script reads numbers
    (uptime, pid, memory counters, status codes) and compares them, it
    never computes with them beyond [2 + 2]. *)
Inductive value : Type :=
| VUndefined
| VNull
| VBool (b : bool)
| VNum (n : Qc)
| VStr (s : string)
| VArr (items : list value)
| VObj (fields : list (string * value)).

Definition num (z : Z) : value := VNum (Q2Qc (inject_Z z)).

(** [ToBoolean]. *)
Definition truthy (v : value) : bool :=
  match v with
  | VUndefined | VNull => false
  | VBool b => b
  | VNum n => negb (bool_decide (n = 0%Qc))
  | VStr s => negb (bool_decide (s = ""))
  | VArr _ | VObj _ => true
  end.

(** [a || b]. *)
Definition or (a b : value) : value := if truthy a then a else b.

(** [typeof v]. *)
Definition typeof (v : value) : string :=
  match v with
  | VUndefined => "undefined"
  | VNull => "object"
  | VBool _ => "boolean"
  | VNum _ => "number"
  | VStr _ => "string"
  | VArr _ | VObj _ => "object"
  end.

(** [a === b] where one side is a primitive: an object or an array is
    never strictly equal to a primitive, and the script compares with
    string and number literals only. *)
Definition strict_eq (a b : value) : bool :=
  match a, b with
  | VUndefined, VUndefined => true
  | VNull, VNull => true
  | VBool x, VBool y => bool_decide (x = y)
  | VNum x, VNum y => bool_decide (x = y)
  | VStr x, VStr y => bool_decide (x = y)
  | _, _ => false
  end.

(** Own property of an object literal or of a parsed JSON object, first
    binding of the key. *)
Fixpoint field (k : string) (fs : list (string * value)) : value :=
  match fs with
  | [] => VUndefined
  | (k', v) :: fs' => if bool_decide (k' = k) then v else field k fs'
  end.

(** An exception value: [name] and [message] of an [Error]. *)
Record error : Type := Error { err_name : string; err_message : string }.

End JS.
Export JS.

(** ** Computations: state, exceptions and [process.exit] *)

Inductive outcome (A : Type) : Type :=
| Return (a : A)
| Throw (e : error)
| Exit (code : Z).
Arguments Return {A} a.
Arguments Throw {A} e.
Arguments Exit {A} code.

Definition M (S A : Type) : Type := S → outcome A * S.

Definition ret {S A} (a : A) : M S A := λ s, (Return a, s).

Definition bind {S A B} (c : M S A) (k : A → M S B) : M S B :=
  λ s, match c s with
       | (Return a, s') => k a s'
       | (Throw e, s') => (Throw e, s')
       | (Exit code, s') => (Exit code, s')
       end.

Definition throw {S A} (e : error) : M S A := λ s, (Throw e, s).

(** [process.exit(code)]: nothing of the script runs afterwards, and no
    [catch] intercepts it. *)
Definition process_exit {S A} (code : Z) : M S A := λ s, (Exit code, s).

(** [try { c } catch (err) { h err }]. *)
Definition try_catch {S A} (c : M S A) (h : error → M S A) : M S A :=
  λ s, match c s with
       | (Throw e, s') => h e s'
       | r => r
       end.

Definition gets {S A} (f : S → A) : M S A := λ s, (Return (f s), s).
Definition modify {S} (f : S → S) : M S unit := λ s, (Return tt, f s).

(** Run a computation on a component of the state. *)
Definition zoom {S T A} (get : T → S) (set : S → T → T) (c : M S A) : M T A :=
  λ t, let '(r, s') := c (get t) in (r, set s' t).

Declare Scope js_scope.
Delimit Scope js_scope with js.
Notation "'let*' x ':=' c 'in' k" := (bind c (λ x, k))
  (at level 10, x name, c at level 100, k at level 200) : js_scope.
Notation "c ';;;' k" := (bind c (λ _, k))
  (at level 100, k at level 200, right associativity) : js_scope.
Local Open Scope js_scope.

(** ** The runtime library the script calls *)

(** A call of the library returns a value or throws. *)
Inductive completion (A : Type) : Type :=
| Normal (a : A)
| Abrupt (e : error).
Arguments Normal {A} a.
Arguments Abrupt {A} e.

Definition library {S A} (c : completion A) : M S A :=
  match c with
  | Normal a => ret a
  | Abrupt e => throw e
  end.

(** Where a server listens: a TCP port, or a pipe named by a path. *)
Inductive address : Type :=
| Tcp (tcp_port : Z)
| Pipe (path : string).

Class NodeLib : Type := {
  (** [url.parse(u, true).pathname]: a string or [null]; [url.parse]
      throws on some inputs. *)
  url_parse_pathname : string → completion value;
  (** [Date.prototype.toISOString] of a valid date, given as milliseconds
      since the epoch. *)
  Date_toISOString : Z → string;
  (** [JSON.stringify(v, null, indent)]. *)
  JSON_stringify : value → nat → string;
  (** [JSON.parse], which throws a [SyntaxError] on malformed text. *)
  JSON_parse : string → completion value;
  (** [Number.prototype.toString]. *)
  Number_toString : Qc → string;
  (** What [server.listen(p, ...)] makes of its first argument: the port
      of a number or of a string that spells one, with 0 for a port of
      the operating system's choice, a pipe for any other string; a port
      that is not an integer of 0..65535 is refused with a
      [RangeError]. *)
  listen_target : value → completion address;
}.

(** ** The process and the world a request handler runs in *)

(** What [process] reports and never changes while the process lives. *)
Record process : Type := Process {
  env : gmap string string;      (* process.env *)
  argv : list string;            (* process.argv *)
  version : string;              (* process.version *)
  platform : string;             (* process.platform *)
  arch : string;                 (* process.arch *)
  pid : Z;                       (* process.pid *)
}.

(** The counters of [process.memoryUsage()], in bytes. *)
Record memory : Type := Memory {
  rss : Z;
  heapTotal : Z;
  heapUsed : Z;
  external : Z;
  arrayBuffers : Z;
}.

Definition memory_object (m : memory) : value :=
  VObj [ ("rss", num (rss m)); ("heapTotal", num (heapTotal m));
         ("heapUsed", num (heapUsed m)); ("external", num (external m));
         ("arrayBuffers", num (arrayBuffers m)) ].

(** What changes from one reading to the next. *)
Record instant : Type := Instant {
  now : Z;                       (* wall clock, ms since the epoch *)
  uptime : Qc;                   (* process.uptime(), seconds *)
  memoryUsage : memory;          (* process.memoryUsage() *)
}.

(** Every reading of the clock or of a process counter sees the next
    instant of the timeline; [console.log] appends to [stdout],
    [console.error] to [stderr]. *)
Record world : Type := World {
  timeline : nat → instant;
  tick : nat;
  stdout : list string;
  stderr : list string;
}.

Definition read {A} (f : instant → A) : M world A :=
  λ w, (Return (f (timeline w (tick w))),
        World (timeline w) (S (tick w)) (stdout w) (stderr w)).

Definition new_Date : M world Z := read now.
Definition process_uptime : M world Qc := read uptime.
Definition process_memoryUsage : M world value :=
  read (λ i, memory_object (memoryUsage i)).

Definition say (line : string) (w : world) : world :=
  World (timeline w) (tick w) (stdout w ++ [line]) (stderr w).
Definition cry (line : string) (w : world) : world :=
  World (timeline w) (tick w) (stdout w) (stderr w ++ [line]).

Definition console_log (line : string) : M world unit := modify (say line).
Definition console_error (line : string) : M world unit := modify (cry line).

(** ** Requests and responses *)

Record request : Type := Request {
  method : string;
  url : string;
  req_headers : gmap string string;
}.

(** [res]: [statusCode] starts at 200, [setHeader] replaces the value of a
    header, [end] stores the body and finishes the response. *)
Record response : Type := Response {
  statusCode : Z;
  headers : gmap string string;
  body : option string;
}.

Definition fresh_response : response := Response 200 ∅ None.

Definition setHeader (name val : string) (res : response) : response :=
  Response (statusCode res) (<[name := val]> (headers res)) (body res).
Definition set_statusCode (code : Z) (res : response) : response :=
  Response code (headers res) (body res).
Definition res_end (data : string) (res : response) : response :=
  Response (statusCode res) (headers res) (Some data).

(** A double quote, for the attribute values of the page. *)
Definition dq : string := String (Ascii.ascii_of_nat 34) "".

(** The arms of [switch (pathname)]. *)
Inductive arm : Type := ArmRoot | ArmHealth | ArmInfo | ArmDefault.

(** [switch] compares with [===], in the order of the [case] labels. *)
Definition switch_arm (pathname : value) : arm :=
  if strict_eq pathname (VStr "/") then ArmRoot
  else if strict_eq pathname (VStr "/health") then ArmHealth
  else if strict_eq pathname (VStr "/info") then ArmInfo
  else ArmDefault.

Section Script.
Context `{NodeLib}.

(** [String(v)], as a template literal applies it; an array joins its
    elements with commas, [null] and [undefined] elements as the empty
    string. *)
Fixpoint ToString (v : value) : string :=
  match v with
  | VUndefined => "undefined"
  | VNull => "null"
  | VBool true => "true"
  | VBool false => "false"
  | VNum n => Number_toString n
  | VStr s => s
  | VArr items =>
      (fix join (l : list value) : string :=
         match l with
         | [] => ""
         | x :: l' =>
             match x with VUndefined | VNull => "" | _ => ToString x end
             +:+ match l' with [] => "" | _ => "," +:+ join l' end
         end) items
  | VObj _ => "[object Object]"
  end.

Variable proc : process.

Definition env_var (name : string) : value :=
  match env proc !! name with
  | Some s => VStr s
  | None => VUndefined
  end.

(** [const port = process.env.PORT || 3000;] *)
Definition port : value := JS.or (env_var "PORT") (num 3000).
(** [const environment = process.env.NODE_ENV || 'development';] *)
Definition environment : value :=
  JS.or (env_var "NODE_ENV") (VStr "development").

(** The page of [case '/'], with its two interpolations. *)
Definition page_head : string :=
"
        <!DOCTYPE html>
        <html>
        <head>
          <title>DevOps Lab 2025</title>
          <style>
            body { font-family: Arial, sans-serif; max-width: 800px; margin: 50px auto; padding: 20px; }
            .header { background: linear-gradient(135deg, #667eea 0%, #764ba2 100%); color: white; padding: 20px; border-radius: 8px; }
            .endpoint { background: #f8f9fa; padding: 15px; margin: 10px 0; border-radius: 5px; border-left: 4px solid #007bff; }
          </style>
        </head>
        <body>
          <div class=" +:+ dq +:+ "header" +:+ dq +:+ ">
            <h1>I'm Getting Better at DevOps, Yay!</h1>
            <p>Modern Node.js application with CI/CD pipeline</p>
          </div>
          <h2>Available Endpoints:</h2>
          <div class=" +:+ dq +:+ "endpoint" +:+ dq +:+ ">
            <strong>GET /</strong> - This welcome page
          </div>
          <div class=" +:+ dq +:+ "endpoint" +:+ dq +:+ ">
            <strong>GET /health</strong> - Health check (JSON)
          </div>
          <div class=" +:+ dq +:+ "endpoint" +:+ dq +:+ ">
            <strong>GET /info</strong> - System information
          </div>
          <p>Environment: <strong>".

Definition page_middle : string :=
"</strong></p>
          <p>Server time: <strong>".

Definition page_tail : string :=
"</strong></p>
        </body>
        </html>
      ".

Definition page (environment_name timestamp : string) : string :=
  page_head +:+ environment_name +:+ page_middle +:+ timestamp +:+ page_tail.

(** The callback of [http.createServer]. *)
Definition handler (req : request) (res : response) : M world response :=
  let* d := new_Date in
  let timestamp := Date_toISOString d in
  let* pathname := library (url_parse_pathname (url req)) in
  console_log (timestamp +:+ " - " +:+ method req +:+ " " +:+
               ToString pathname +:+ " - " +:+
               ToString (match req_headers req !! "user-agent" with
                         | Some s => VStr s
                         | None => VUndefined
                         end));;;
  let res := setHeader "Access-Control-Allow-Origin" "*" res in
  let res := setHeader "Access-Control-Allow-Methods" "GET, POST, PUT, DELETE" res in
  let res := setHeader "Access-Control-Allow-Headers" "Content-Type" res in
  match switch_arm pathname with
  | ArmRoot =>
      let res := set_statusCode 200 res in
      let res := setHeader "Content-Type" "text/html" res in
      ret (res_end (page (ToString environment) timestamp) res)
  | ArmHealth =>
      let res := set_statusCode 200 res in
      let res := setHeader "Content-Type" "application/json" res in
      let* d' := new_Date in
      let* up := process_uptime in
      ret (res_end (JSON_stringify (VObj [
             ("status", VStr "healthy");
             ("timestamp", VStr (Date_toISOString d'));
             ("uptime", VNum up);
             ("environment", environment);
             ("version", VStr "1.0.0");
             ("node_version", VStr (version proc)) ]) 2) res)
  | ArmInfo =>
      let res := set_statusCode 200 res in
      let res := setHeader "Content-Type" "application/json" res in
      let* mem := process_memoryUsage in
      ret (res_end (JSON_stringify (VObj [
             ("platform", VStr (platform proc));
             ("architecture", VStr (arch proc));
             ("node_version", VStr (version proc));
             ("memory_usage", mem);
             ("environment", environment);
             ("pid", num (pid proc)) ]) 2) res)
  | ArmDefault =>
      let res := set_statusCode 404 res in
      let res := setHeader "Content-Type" "application/json" res in
      let* d' := new_Date in
      ret (res_end (JSON_stringify (VObj [
             ("error", VStr "Not Found");
             ("message", VStr ("Route " +:+ ToString pathname +:+ " not found"));
             ("timestamp", VStr (Date_toISOString d')) ]) 2) res)
  end.

End Script.

(** ** The process: the server, operations in flight, the event loop *)

(** The function values the script hands to the runtime, by the event
    they wait for.  A closure is its code and what it captured. *)
Inductive signal_cb : Type :=
| CbSigterm.                      (* process.on('SIGTERM', () => ...) *)

Inductive listening_cb : Type :=
| CbListening                     (* server.listen(port, () => ...) *)
| CbTestListening.                (* server.listen(0, () => ...) *)

Inductive close_cb : Type :=
| CbServerClosed.                 (* server.close(() => ...) of the SIGTERM handler *)

Inductive response_cb : Type :=
| CbHealthEnd (addr_port : value) (* first http.get: response read to its end *)
| CbInfoEnd.                      (* second http.get: response read to its end *)

Inductive error_cb : Type :=
| CbHealthError.                  (* first http.get: .on('error', ...) *)

(** A client request in flight: [http.get(url, on_end)], with the
    ['error'] listener when one was attached. *)
Record client_request : Type := ClientRequest {
  target : string;
  on_end : response_cb;
  on_error : option error_cb;
}.

(** What the process does that the outside can see, in order. *)
Inductive obs : Type :=
| ObsBound (bound : address)  (* the server accepts connections there *)
| ObsAccept                   (* a connection is accepted *)
| ObsConnEnd                  (* a connection has ended *)
| ObsStopAccepting            (* the listening handle is closed *)
| ObsClosed                   (* 'close' fires *)
| ObsExit (code : Z).         (* process.exit(code) *)

Inductive status : Type :=
| Running
| Exited (code : Z)           (* process.exit(code) *)
| Crashed (e : error).        (* uncaught exception, unhandled 'error' event *)

(** The status the parent of the process sees: an uncaught exception
    ends a Node.js process with status 1. *)
Definition exit_status (st : status) : option Z :=
  match st with
  | Running => None
  | Exited code => Some code
  | Crashed _ => Some 1
  end.

Record pstate : Type := PState {
  the_world : world;
  sigterm_listeners : list signal_cb;
  srv_listen : option (address * listening_cb);
                                        (* listen called, 'listening' due *)
  srv_handle : option address;          (* where it is bound, while accepting *)
  srv_conns : nat;                      (* open connections *)
  srv_closing : bool;                   (* close called, 'close' due *)
  srv_close_listeners : list close_cb;  (* once('close', cb) *)
  http_pending : list client_request;
  sent : list response;                 (* responses of the handler *)
  trace : list obs;
  run_status : status;
}.

Definition set_world (w : world) (s : pstate) : pstate :=
  PState w (sigterm_listeners s) (srv_listen s) (srv_handle s) (srv_conns s)
         (srv_closing s) (srv_close_listeners s) (http_pending s) (sent s)
         (trace s) (run_status s).
Definition set_sigterm_listeners (l : list signal_cb) (s : pstate) : pstate :=
  PState (the_world s) l (srv_listen s) (srv_handle s) (srv_conns s)
         (srv_closing s) (srv_close_listeners s) (http_pending s) (sent s)
         (trace s) (run_status s).
Definition set_listen (l : option (address * listening_cb)) (s : pstate)
  : pstate :=
  PState (the_world s) (sigterm_listeners s) l (srv_handle s) (srv_conns s)
         (srv_closing s) (srv_close_listeners s) (http_pending s) (sent s)
         (trace s) (run_status s).
Definition set_handle (h : option address) (s : pstate) : pstate :=
  PState (the_world s) (sigterm_listeners s) (srv_listen s) h (srv_conns s)
         (srv_closing s) (srv_close_listeners s) (http_pending s) (sent s)
         (trace s) (run_status s).
Definition set_conns (n : nat) (s : pstate) : pstate :=
  PState (the_world s) (sigterm_listeners s) (srv_listen s) (srv_handle s) n
         (srv_closing s) (srv_close_listeners s) (http_pending s) (sent s)
         (trace s) (run_status s).
Definition set_closing (b : bool) (l : list close_cb) (s : pstate) : pstate :=
  PState (the_world s) (sigterm_listeners s) (srv_listen s) (srv_handle s)
         (srv_conns s) b l (http_pending s) (sent s) (trace s) (run_status s).
Definition set_pending (l : list client_request) (s : pstate) : pstate :=
  PState (the_world s) (sigterm_listeners s) (srv_listen s) (srv_handle s)
         (srv_conns s) (srv_closing s) (srv_close_listeners s) l (sent s)
         (trace s) (run_status s).
Definition set_sent (l : list response) (s : pstate) : pstate :=
  PState (the_world s) (sigterm_listeners s) (srv_listen s) (srv_handle s)
         (srv_conns s) (srv_closing s) (srv_close_listeners s)
         (http_pending s) l (trace s) (run_status s).
Definition observe (o : obs) (s : pstate) : pstate :=
  PState (the_world s) (sigterm_listeners s) (srv_listen s) (srv_handle s)
         (srv_conns s) (srv_closing s) (srv_close_listeners s)
         (http_pending s) (sent s) (trace s ++ [o]) (run_status s).
Definition set_status (st : status) (s : pstate) : pstate :=
  PState (the_world s) (sigterm_listeners s) (srv_listen s) (srv_handle s)
         (srv_conns s) (srv_closing s) (srv_close_listeners s)
         (http_pending s) (sent s) (trace s) st.

Definition in_world {A} (c : M world A) : M pstate A :=
  zoom the_world set_world c.

(** [process.on('SIGTERM', cb)] *)
Definition process_on_SIGTERM (cb : signal_cb) : M pstate unit :=
  modify (λ s, set_sigterm_listeners (sigterm_listeners s ++ [cb]) s).

(** [server.close(cb)]: the listening handle is closed at once, so that
    no connection is accepted any more; [cb] is kept for ['close'], which
    fires when no connection is left. *)
Definition close_server (cb : option close_cb) (s : pstate) : pstate :=
  let s' := set_closing true (srv_close_listeners s ++ option_list cb)
              (set_handle None (set_listen None s)) in
  match srv_handle s with
  | Some _ => observe ObsStopAccepting s'
  | None => s'
  end.

Definition server_close (cb : option close_cb) : M pstate unit :=
  modify (close_server cb).

(** [server.address().port]: [address()] is an object with the port for
    a server bound to one, the path (a string, with no [port]) for a
    pipe, [null] unless the server is bound. *)
Definition server_address_port : M pstate value :=
  let* h := gets srv_handle in
  match h with
  | Some (Tcp b) => ret (num b)
  | Some (Pipe _) => ret VUndefined
  | None => throw (Error "TypeError" "Cannot read properties of null (reading 'port')")
  end.

Definition http_get (u : string) (cb : response_cb) (err_cb : option error_cb)
  : M pstate unit :=
  modify (λ s, set_pending (http_pending s ++ [ClientRequest u cb err_cb]) s).

(** [assert.strictEqual(actual, expected, message)] and
    [assert(value, message)]. *)
Definition assert_strictEqual {S} (actual expected : value) (message : string)
  : M S unit :=
  if strict_eq actual expected then ret tt
  else throw (Error "AssertionError" message).

Definition assert {S} (v : value) (message : string) : M S unit :=
  if truthy v then ret tt else throw (Error "AssertionError" message).

(** [v.k] on a parsed JSON value: a [TypeError] on [null] and
    [undefined], the own property of an object, [undefined] otherwise
    (the script reads no inherited property). *)
Definition get_prop {S} (v : value) (k : string) : M S value :=
  match v with
  | VUndefined | VNull =>
      throw (Error "TypeError" ("Cannot read properties of " +:+
                                match v with VNull => "null" | _ => "undefined" end
                                +:+ " (reading '" +:+ k +:+ "')"))
  | VObj fs => ret (field k fs)
  | _ => ret VUndefined
  end.

Section Process.
Context `{NodeLib}.
Variable proc : process.

(** [server.listen(p, cb)]: [cb] runs once the server is bound. *)
Definition server_listen (p : value) (cb : listening_cb) : M pstate unit :=
  let* a := library (listen_target p) in
  modify (set_listen (Some (a, cb))).

(** [process.on('SIGTERM', () => { ... })] *)
Definition on_sigterm : M pstate unit :=
  in_world (console_log "Received SIGTERM, shutting down gracefully");;;
  server_close (Some CbServerClosed).

(** The callback given to [server.close] by the SIGTERM handler. *)
Definition on_server_closed : M pstate unit :=
  in_world (console_log "Server closed");;;
  process_exit 0.

(** The callback of [server.listen(port, ...)]. *)
Definition on_listening : M pstate unit :=
  in_world (console_log ("🚀 Server running at http://localhost:" +:+
                         ToString (port proc) +:+ "/"));;;
  in_world (console_log ("Environment: " +:+ ToString (environment proc)));;;
  in_world (console_log ("Node.js version: " +:+ version proc)).

(** The callback of [server.listen(0, ...)] in the self-test. *)
Definition on_test_listening : M pstate unit :=
  let* addr_port := server_address_port in
  let testUrl := "http://localhost:" +:+ ToString addr_port +:+ "/health" in
  http_get testUrl (CbHealthEnd addr_port) (Some CbHealthError).

(** [res.on('end', ...)] of the request to [/health]: [statusCode] is
    [res.statusCode], [data] the chunks of the body put together. *)
Definition on_health_end (addr_port : value) (statusCode : Z) (data : string)
  : M pstate unit :=
  try_catch
    (let* json := library (JSON_parse data) in
     assert_strictEqual (num statusCode) (num 200)
                        "Health endpoint should return 200";;;
     let* st := get_prop json "status" in
     assert_strictEqual st (VStr "healthy") "Health status should be healthy";;;
     let* ts := get_prop json "timestamp" in
     assert ts "Should have timestamp";;;
     let* up := get_prop json "uptime" in
     assert (VBool (strict_eq (VStr (typeof up)) (VStr "number")))
            "Uptime should be a number";;;
     in_world (console_log "✅ Health endpoint test passed");;;
     let infoUrl := "http://localhost:" +:+ ToString addr_port +:+ "/info" in
     http_get infoUrl CbInfoEnd None)
    (λ err,
     in_world (console_error ("❌ Health endpoint test failed: " +:+
                              err_message err));;;
     server_close None;;;
     process_exit 1).

(** [res2.on('end', ...)] of the request to [/info]. *)
Definition on_info_end (statusCode : Z) (data2 : string) : M pstate unit :=
  try_catch
    (let* json2 := library (JSON_parse data2) in
     assert_strictEqual (num statusCode) (num 200)
                        "Info endpoint should return 200";;;
     let* pf := get_prop json2 "platform" in
     assert pf "Should have platform info";;;
     in_world (console_log "✅ Info endpoint test passed");;;
     in_world (console_log "🎉 All tests passed successfully!");;;
     server_close None;;;
     process_exit 0)
    (λ err,
     in_world (console_error ("❌ Info endpoint test failed: " +:+
                              err_message err));;;
     server_close None;;;
     process_exit 1).

(** [.on('error', ...)] of the request to [/health]. *)
Definition on_health_error (err : error) : M pstate unit :=
  in_world (console_error ("❌ HTTP request failed: " +:+ err_message err));;;
  server_close None;;;
  process_exit 1.

(** [process.argv[2]] *)
Definition argv2 : value :=
  match argv proc !! 2%nat with
  | Some s => VStr s
  | None => VUndefined
  end.

(** The script from its first line to its last: the constants and the
    server are set up on the way, the SIGTERM handler is registered,
    then one of the two modes starts. *)
Definition main : M pstate unit :=
  process_on_SIGTERM CbSigterm;;;
  (if negb (strict_eq argv2 (VStr "test"))
   then server_listen (port proc) CbListening
   else ret tt);;;
  (if strict_eq argv2 (VStr "test") then
     in_world (console_log "🧪 Running tests...");;;
     try_catch
       (assert_strictEqual (VNum (2 + 2)%Qc) (num 4) "Math test failed";;;
        in_world (console_log "✅ Math test passed"))
       (λ err,
        in_world (console_error ("❌ Math test failed: " +:+ err_message err));;;
        process_exit 1);;;
     server_listen (num 0) CbTestListening
   else ret tt).

(** *** The event loop *)

(** What the runtime delivers to the process. *)
Inductive event : Type :=
| EvListening (bound : address)
                              (* the server is bound, 'listening' fires *)
| EvListenError (err : error) (* the server cannot be bound: 'error' *)
| EvConnection                (* a client connects *)
| EvRequest (req : request)   (* a request arrives on an open connection *)
| EvDisconnect                (* a connection ends *)
| EvClose                     (* 'close' of the server fires *)
| EvSigterm                   (* the signal arrives *)
| EvHttpEnd (i : nat) (statusCode : Z) (data : string)
                              (* client request [i]: response complete *)
| EvHttpError (i : nat) (err : error).
                              (* client request [i]: 'error' *)

(** A callback returns to the event loop, throws (nothing above it
    catches: the process dies of the uncaught exception), or leaves by
    [process.exit]. *)
Definition settle (r : outcome unit * pstate) : pstate :=
  let '(o, s) := r in
  match o with
  | Return _ => s
  | Throw e => set_status (Crashed e) s
  | Exit code => set_status (Exited code) (observe (ObsExit code) s)
  end.

Definition call_signal (cb : signal_cb) : M pstate unit :=
  match cb with
  | CbSigterm => on_sigterm
  end.

Definition call_listening (cb : listening_cb) : M pstate unit :=
  match cb with
  | CbListening => on_listening
  | CbTestListening => on_test_listening
  end.

Definition call_close (cb : close_cb) : M pstate unit :=
  match cb with
  | CbServerClosed => on_server_closed
  end.

Definition call_response (cb : response_cb) (statusCode : Z) (data : string)
  : M pstate unit :=
  match cb with
  | CbHealthEnd addr_port => on_health_end addr_port statusCode data
  | CbInfoEnd => on_info_end statusCode data
  end.

Definition call_error (cb : error_cb) (err : error) : M pstate unit :=
  match cb with
  | CbHealthError => on_health_error err
  end.

(** Listeners of one event run in the order they were added. *)
Fixpoint call_all {C} (call : C → M pstate unit) (cbs : list C)
  : M pstate unit :=
  match cbs with
  | [] => ret tt
  | cb :: cbs' => call cb;;; call_all call cbs'
  end.

(** The request handler on a connection: the response it ends is
    sent. *)
Definition serve (req : request) : M pstate unit :=
  let* res := in_world (handler proc req fresh_response) in
  modify (λ s, set_sent (sent s ++ [res]) s).

(** Where the server is bound answers what was asked for: port 0 asks
    the operating system for a free port of its choice. *)
Definition bound_ok (asked bound : address) : bool :=
  match asked, bound with
  | Tcp a, Tcp b =>
      if bool_decide (a = 0) then bool_decide (0 < b ≤ 65535)
      else bool_decide (b = a)
  | Pipe a, Pipe b => bool_decide (b = a)
  | _, _ => false
  end.

(** One event, when the process runs and the event can happen.  The
    ['listening'] callback is due before anything from outside; the
    server has no ['error'] listener, so that a failure to bind is an
    uncaught exception; a SIGTERM nobody listens to is left out (it
    would kill the process: the script registers its listener first
    thing). *)
Definition deliver (ev : event) (s : pstate) : option pstate :=
  match run_status s with
  | Running =>
      match srv_listen s, ev with
      | Some (asked, cb), EvListening bound =>
          if bound_ok asked bound then
            Some (settle (call_listening cb
                    (observe (ObsBound bound)
                       (set_handle (Some bound) (set_listen None s)))))
          else None
      | Some _, EvListenError err => Some (settle (throw err s))
      | Some _, _ => None
      | None, EvListening _ | None, EvListenError _ => None
      | None, EvConnection =>
          match srv_handle s with
          | Some _ => Some (observe ObsAccept (set_conns (S (srv_conns s)) s))
          | None => None
          end
      | None, EvRequest req =>
          match srv_conns s with
          | O => None
          | S _ => Some (settle (serve req s))
          end
      | None, EvDisconnect =>
          match srv_conns s with
          | O => None
          | S n => Some (observe ObsConnEnd (set_conns n s))
          end
      | None, EvClose =>
          if srv_closing s && bool_decide (srv_handle s = None)
             && bool_decide (srv_conns s = 0%nat)
          then
            Some (settle (call_all call_close (srv_close_listeners s)
                    (observe ObsClosed (set_closing false [] s))))
          else None
      | None, EvSigterm =>
          match sigterm_listeners s with
          | [] => None
          | cbs => Some (settle (call_all call_signal cbs s))
          end
      | None, EvHttpEnd i statusCode data =>
          match http_pending s !! i with
          | Some r =>
              Some (settle (call_response (on_end r) statusCode data
                      (set_pending (delete i (http_pending s)) s)))
          | None => None
          end
      | None, EvHttpError i err =>
          match http_pending s !! i with
          | Some r =>
              let s' := set_pending (delete i (http_pending s)) s in
              match on_error r with
              | Some cb => Some (settle (call_error cb err s'))
              | None => Some (settle (throw err s'))
              end
          | None => None
          end
      end
  | _ => None
  end.

Fixpoint exec (evs : list event) (s : pstate) : option pstate :=
  match evs with
  | [] => Some s
  | ev :: evs' =>
      match deliver ev s with
      | Some s' => exec evs' s'
      | None => None
      end
  end.

(** The process once the script has run to its last line. *)
Definition boot (w : world) : pstate :=
  settle (main (PState w [] None None 0 false [] [] [] [] Running)).

End Process.

(** ** A reference implementation of the runtime library

    Executable stand-ins for the library functions, used to run the
    model on concrete requests.  They follow ECMAScript and the Node.js
    documentation on the inputs the examples use; no theorem about the
    script depends on them. *)

Module Ref.

(** *** Numbers *)

Definition Z_to_string (z : Z) : string :=
  DecimalString.NilZero.string_of_int (Z.to_int z).

(** Digits of [r / d] after the point, [r < d], at most [fuel] of
    them. *)
Fixpoint fraction_digits (fuel : nat) (r d : Z) : string :=
  match fuel with
  | O => ""
  | S fuel' =>
      if bool_decide (r = 0) then ""
      else Z_to_string (10 * r / d) +:+ fraction_digits fuel' (10 * r mod d) d
  end.

(** Integers are printed exactly, other numbers in positional notation
    with at most 17 digits after the point. *)
Definition number_toString (q : Qc) : string :=
  let n := Qnum q in
  let d := Z.pos (Qden q) in
  let a := Z.abs n in
  (if bool_decide (n < 0) then "-" else "") +:+
  Z_to_string (a / d) +:+
  (if bool_decide (a mod d = 0) then ""
   else "." +:+ fraction_digits 17 (a mod d) d).

(** *** Dates *)

(** Year, month and day of a day number counted from 1970-01-01 in the
    proleptic Gregorian calendar. *)
Definition civil_from_days (days : Z) : Z * Z * Z :=
  let z := days + 719468 in
  let era := z / 146097 in
  let doe := z - era * 146097 in
  let yoe := (doe - doe / 1460 + doe / 36524 - doe / 146096) / 365 in
  let doy := doe - (365 * yoe + yoe / 4 - yoe / 100) in
  let mp := (5 * doy + 2) / 153 in
  let d := doy - (153 * mp + 2) / 5 + 1 in
  let m := if bool_decide (mp < 10) then mp + 3 else mp - 9 in
  let y := yoe + era * 400 + (if bool_decide (m ≤ 2) then 1 else 0) in
  (y, m, d).

Fixpoint zeros (n : nat) : string :=
  match n with O => "" | S n' => "0" +:+ zeros n' end.

(** [z ≥ 0] in at least [width] digits. *)
Definition pad (width : nat) (z : Z) : string :=
  let s := Z_to_string z in
  zeros (width - String.length s) +:+ s.

Definition toISOString (ms : Z) : string :=
  let '(y, m, d) := civil_from_days (ms / 86400000) in
  let t := ms mod 86400000 in
  (if bool_decide (0 ≤ y ≤ 9999) then pad 4 y
   else (if bool_decide (y < 0) then "-" else "+") +:+ pad 6 (Z.abs y))
  +:+ "-" +:+ pad 2 m +:+ "-" +:+ pad 2 d +:+ "T" +:+
  pad 2 (t / 3600000) +:+ ":" +:+ pad 2 (t / 60000 mod 60) +:+ ":" +:+
  pad 2 (t / 1000 mod 60) +:+ "." +:+ pad 3 (t mod 1000) +:+ "Z".

(** *** The path of a request target *)

Definition code (c : ascii) : Z := Z.of_nat (nat_of_ascii c).

(** The characters that send [url.parse] off its fast path, or end the
    match of its pattern: blanks and control characters, [#], [@] and
    the backslash. *)
Definition plain (c : ascii) : bool :=
  negb (bool_decide (code c < 33)) && negb (bool_decide (code c = 35))
  && negb (bool_decide (code c = 64)) && negb (bool_decide (code c = 92)).

Fixpoint all_plain (s : string) : bool :=
  match s with
  | EmptyString => true
  | String c s' => plain c && all_plain s'
  end.

(** The part of [s] before its first [?]. *)
Fixpoint before_query (s : string) : string :=
  match s with
  | EmptyString => ""
  | String c s' => if bool_decide (code c = 63) then "" else String c (before_query s')
  end.

Definition is_slash (c : ascii) : bool := bool_decide (code c = 47).

(** One or two slashes at the start, not three. *)
Definition leading_slashes (s : string) : bool :=
  match s with
  | String c1 rest =>
      is_slash c1 &&
      negb match rest with
           | String c2 (String c3 _) => is_slash c2 && is_slash c3
           | _ => false
           end
  | EmptyString => false
  end.

(** A target on the fast path: it starts with one or two slashes, not
    three, and has plain characters only. *)
Definition simple_path (s : string) : bool :=
  all_plain s && leading_slashes s.

(** [url.parse(u, true).pathname] on the fast path of [url.parse]: the
    target up to its query string.  Other targets (absolute URLs, [*],
    targets with a fragment, a backslash, ...) are not covered, and are
    refused. *)
Definition pathname_of (u : string) : completion value :=
  if simple_path u then Normal (VStr (before_query u))
  else Abrupt (Error "Error" "target outside the fast path of url.parse").

(** *** Ports *)

(** The value of a string of decimal digits. *)
Definition digit_of (c : ascii) : option Z :=
  if bool_decide (48 ≤ code c ≤ 57) then Some (code c - 48) else None.

Fixpoint digits_value (acc : Z) (s : string) : option Z :=
  match s with
  | EmptyString => Some acc
  | String c s' =>
      match digit_of c with
      | Some d => digits_value (10 * acc + d) s'
      | None => None
      end
  end.

Definition bad_port : error :=
  Error "RangeError" "options.port should be >= 0 and < 65536".

(** Integers and strings of decimal digits are ports, other strings
    pipes, no port at all is port 0.  (The other spellings of a number
    in a string, a sign, an exponent, a radix prefix, blanks around it,
    are not told apart from the name of a pipe.) *)
Definition target_of (p : value) : completion address :=
  match p with
  | VNum n =>
      if bool_decide (Qden n = 1%positive) && bool_decide (0 ≤ Qnum n ≤ 65535)
      then Normal (Tcp (Qnum n)) else Abrupt bad_port
  | VStr EmptyString => Abrupt bad_port
  | VStr s =>
      match digits_value 0 s with
      | Some r => if bool_decide (r ≤ 65535) then Normal (Tcp r) else Abrupt bad_port
      | None => Normal (Pipe s)
      end
  | VUndefined | VNull => Normal (Tcp 0)
  | _ => Abrupt (Error "TypeError" "The argument 'options' is invalid")
  end.

(** *** JSON text *)

Definition nl : string := String (ascii_of_nat 10) "".

Definition hex_digit (n : Z) : string :=
  String (ascii_of_nat (Z.to_nat (if bool_decide (n < 10) then 48 + n else 87 + n))) "".

(** A character inside a JSON string. *)
Definition escape (c : ascii) : string :=
  let n := code c in
  if bool_decide (n = 34) then "\" +:+ dq
  else if bool_decide (n = 92) then "\\"
  else if bool_decide (n = 8) then "\b"
  else if bool_decide (n = 9) then "\t"
  else if bool_decide (n = 10) then "\n"
  else if bool_decide (n = 12) then "\f"
  else if bool_decide (n = 13) then "\r"
  else if bool_decide (n < 32) then "\u00" +:+ hex_digit (n / 16) +:+ hex_digit (n mod 16)
  else String c "".

Fixpoint escape_all (s : string) : string :=
  match s with
  | EmptyString => ""
  | String c s' => escape c +:+ escape_all s'
  end.

Definition quote (s : string) : string := dq +:+ escape_all s +:+ dq.

Fixpoint join (sep : string) (parts : list string) : string :=
  match parts with
  | [] => ""
  | [x] => x
  | x :: parts' => x +:+ sep +:+ join sep parts'
  end.

(** The members of an object or an array between their brackets, at
    indentation [ind'] inside a value at indentation [ind]. *)
Definition wrap (open close ind ind' gap : string) (parts : list string) : string :=
  match parts with
  | [] => open +:+ close
  | _ =>
      if bool_decide (gap = "") then open +:+ join "," parts +:+ close
      else open +:+ nl +:+ ind' +:+ join ("," +:+ nl +:+ ind') parts
           +:+ nl +:+ ind +:+ close
  end.

(** The text of a value, [None] where [JSON.stringify] gives
    [undefined]: a property with such a value is left out, an array
    element is written [null]. *)
Fixpoint stringify (ind gap : string) (v : value) : option string :=
  match v with
  | VUndefined => None
  | VNull => Some "null"
  | VBool true => Some "true"
  | VBool false => Some "false"
  | VNum n => Some (number_toString n)
  | VStr s => Some (quote s)
  | VArr items =>
      Some (wrap "[" "]" ind (ind +:+ gap) gap
              ((fix go (l : list value) : list string :=
                  match l with
                  | [] => []
                  | x :: l' =>
                      match stringify (ind +:+ gap) gap x with
                      | Some t => t
                      | None => "null"
                      end :: go l'
                  end) items))
  | VObj fs =>
      Some (wrap "{" "}" ind (ind +:+ gap) gap
              ((fix go (l : list (string * value)) : list string :=
                  match l with
                  | [] => []
                  | (k, x) :: l' =>
                      match stringify (ind +:+ gap) gap x with
                      | Some t =>
                          (quote k +:+ (if bool_decide (gap = "") then ":" else ": ")
                           +:+ t) :: go l'
                      | None => go l'
                      end
                  end) fs))
  end.

Fixpoint spaces (n : nat) : string :=
  match n with O => "" | S n' => " " +:+ spaces n' end.

Definition to_json (v : value) (indent : nat) : string :=
  match stringify "" (spaces (indent `min` 10)) v with
  | Some t => t
  | None => "undefined"
  end.

(** Parsing. *)

Definition is_ws (c : ascii) : bool :=
  bool_decide (code c = 32) || bool_decide (code c = 9)
  || bool_decide (code c = 10) || bool_decide (code c = 13).

Fixpoint skip_ws (s : string) : string :=
  match s with
  | String c s' => if is_ws c then skip_ws s' else s
  | EmptyString => s
  end.

Definition hex_value (c : ascii) : option Z :=
  let n := code c in
  if bool_decide (48 ≤ n ≤ 57) then Some (n - 48)
  else if bool_decide (97 ≤ n ≤ 102) then Some (n - 87)
  else if bool_decide (65 ≤ n ≤ 70) then Some (n - 55)
  else None.

Definition byte (n : Z) : string := String (ascii_of_nat (Z.to_nat n)) "".

(** UTF-8 of a code unit of a [\u] escape. *)
Definition utf8 (u : Z) : string :=
  if bool_decide (u < 128) then byte u
  else if bool_decide (u < 2048) then byte (192 + u / 64) +:+ byte (128 + u mod 64)
  else byte (224 + u / 4096) +:+ byte (128 + u / 64 mod 64) +:+ byte (128 + u mod 64).

(** The characters of a string after its opening quote, and what
    follows the closing quote. *)
Fixpoint parse_chars (s : string) : option (string * string) :=
  match s with
  | EmptyString => None
  | String c s' =>
      if bool_decide (code c = 34) then Some ("", s')
      else if bool_decide (code c = 92) then
        match s' with
        | String e s'' =>
            let simple (t : string) :=
              match parse_chars s'' with
              | Some (r, rest) => Some (t +:+ r, rest)
              | None => None
              end in
            if bool_decide (code e = 34) then simple dq
            else if bool_decide (code e = 92) then simple "\"
            else if bool_decide (code e = 47) then simple "/"
            else if bool_decide (code e = 98) then simple (byte 8)
            else if bool_decide (code e = 102) then simple (byte 12)
            else if bool_decide (code e = 110) then simple (byte 10)
            else if bool_decide (code e = 114) then simple (byte 13)
            else if bool_decide (code e = 116) then simple (byte 9)
            else if bool_decide (code e = 117) then
              match s'' with
              | String h1 (String h2 (String h3 (String h4 s4))) =>
                  match hex_value h1, hex_value h2, hex_value h3, hex_value h4,
                        parse_chars s4 with
                  | Some a, Some b, Some c', Some d, Some (r, rest) =>
                      Some (utf8 (4096 * a + 256 * b + 16 * c' + d) +:+ r, rest)
                  | _, _, _, _, _ => None
                  end
              | _ => None
              end
            else None
        | EmptyString => None
        end
      else if bool_decide (code c < 32) then None
      else
        match parse_chars s' with
        | Some (r, rest) => Some (String c r, rest)
        | None => None
        end
  end.

(** The leading digits of [s]: their value continuing [acc], how many
    they are, and the rest. *)
Fixpoint take_digits (acc : Z) (count : nat) (s : string) : Z * nat * string :=
  match s with
  | String c s' =>
      match digit_of c with
      | Some d => take_digits (10 * acc + d) (S count) s'
      | None => (acc, count, s)
      end
  | EmptyString => (acc, count, s)
  end.

Definition parse_number (s : string) : option (Qc * string) :=
  let '(neg, s) := match s with
                   | String "-" s' => (true, s')
                   | _ => (false, s)
                   end in
  let '(i, ni, s1) := take_digits 0 0 s in
  let leading_zero := match s with String "0" _ => true | _ => false end in
  if bool_decide (ni = 0%nat) || (leading_zero && negb (bool_decide (ni = 1%nat)))
  then None
  else
    let fraction :=
      match s1 with
      | String "." s2 =>
          let '(f, nf, s3) := take_digits 0 0 s2 in
          if bool_decide (nf = 0%nat) then None else Some (f, nf, s3)
      | _ => Some (0, 0%nat, s1)
      end in
    match fraction with
    | None => None
    | Some (f, nf, s3) =>
        let exponent :=
          match s3 with
          | String e s4 =>
              if bool_decide (code e = 101) || bool_decide (code e = 69) then
                let '(eneg, s5) := match s4 with
                                   | String "-" s' => (true, s')
                                   | String "+" s' => (false, s')
                                   | _ => (false, s4)
                                   end in
                let '(x, nx, s6) := take_digits 0 0 s5 in
                if bool_decide (nx = 0%nat) then None
                else Some (if eneg then - x else x, s6)
              else Some (0, s3)
          | EmptyString => Some (0, s3)
          end in
        match exponent with
        | None => None
        | Some (x, rest) =>
            let mantissa := i * 10 ^ Z.of_nat nf + f in
            let scale := x - Z.of_nat nf in
            let q := if bool_decide (0 ≤ scale)
                     then inject_Z (mantissa * 10 ^ scale)
                     else Qmake mantissa (Z.to_pos (10 ^ (- scale))) in
            Some (Q2Qc (if neg then Qopp q else q), rest)
        end
    end.

Definition is_prefix (p s : string) : option string :=
  if String.prefix p s
  then Some (String.substring (String.length p) (String.length s - String.length p) s)
  else None.

(** A later member of the same name replaces the value of the earlier
    one, in its place. *)
Fixpoint obj_set (k : string) (v : value) (fs : list (string * value))
  : list (string * value) :=
  match fs with
  | [] => [(k, v)]
  | (k', v') :: fs' =>
      if bool_decide (k' = k) then (k, v) :: fs' else (k', v') :: obj_set k v fs'
  end.

Fixpoint parse_value (fuel : nat) (s : string) : option (value * string) :=
  match fuel with
  | O => None
  | S fuel' =>
      match skip_ws s with
      | String "{" s1 =>
          match skip_ws s1 with
          | String "}" rest => Some (VObj [], rest)
          | _ => parse_members fuel' s1 []
          end
      | String "[" s1 =>
          match skip_ws s1 with
          | String "]" rest => Some (VArr [], rest)
          | _ => parse_elements fuel' s1 []
          end
      | String c s1 as s0 =>
          if bool_decide (code c = 34) then
            match parse_chars s1 with
            | Some (t, rest) => Some (VStr t, rest)
            | None => None
            end
          else
            match is_prefix "true" s0, is_prefix "false" s0, is_prefix "null" s0 with
            | Some rest, _, _ => Some (VBool true, rest)
            | _, Some rest, _ => Some (VBool false, rest)
            | _, _, Some rest => Some (VNull, rest)
            | _, _, _ =>
                match parse_number s0 with
                | Some (n, rest) => Some (VNum n, rest)
                | None => None
                end
            end
      | EmptyString => None
      end
  end
with parse_members (fuel : nat) (s : string) (acc : list (string * value))
  : option (value * string) :=
  match fuel with
  | O => None
  | S fuel' =>
      match skip_ws s with
      | String c s1 =>
          if bool_decide (code c = 34) then
            match parse_chars s1 with
            | Some (k, s2) =>
                match skip_ws s2 with
                | String ":" s3 =>
                    match parse_value fuel' s3 with
                    | Some (v, s4) =>
                        match skip_ws s4 with
                        | String "," s5 => parse_members fuel' s5 (obj_set k v acc)
                        | String "}" rest => Some (VObj (obj_set k v acc), rest)
                        | _ => None
                        end
                    | None => None
                    end
                | _ => None
                end
            | None => None
            end
          else None
      | EmptyString => None
      end
  end
with parse_elements (fuel : nat) (s : string) (acc : list value)
  : option (value * string) :=
  match fuel with
  | O => None
  | S fuel' =>
      match parse_value fuel' s with
      | Some (v, s1) =>
          match skip_ws s1 with
          | String "," s2 => parse_elements fuel' s2 (acc ++ [v])
          | String "]" rest => Some (VArr (acc ++ [v]), rest)
          | _ => None
          end
      | None => None
      end
  end.

Definition from_json (text : string) : completion value :=
  match parse_value (S (String.length text)) text with
  | Some (v, rest) =>
      match skip_ws rest with
      | EmptyString => Normal v
      | _ => Abrupt (Error "SyntaxError" "Unexpected non-whitespace character after JSON")
      end
  | None => Abrupt (Error "SyntaxError" "Unexpected token in JSON")
  end.

#[export] Instance lib : NodeLib := {|
  url_parse_pathname := pathname_of;
  Date_toISOString := toISOString;
  JSON_stringify := to_json;
  JSON_parse := from_json;
  Number_toString := number_toString;
  listen_target := target_of;
|}.

End Ref.

(** * Notions for stating the properties *)

(** ** Modes and states *)

(** The self-test is chosen by [process.argv[2] === 'test']. *)
Definition test_mode (proc : process) : Prop := argv proc !! 2%nat = Some "test".

(** The state the script starts from. *)
Definition blank (w : world) : pstate :=
  PState w [] None None 0 false [] [] [] [] Running.

(** The state after a line on the console. *)
Definition logged (line : string) (s : pstate) : pstate :=
  set_world (say line (the_world s)) s.
Definition complained (line : string) (s : pstate) : pstate :=
  set_world (cry line (the_world s)) s.

(** What is observed while the server accepts connections. *)
Definition quiet (o : obs) : Prop :=
  match o with
  | ObsBound _ | ObsAccept | ObsConnEnd => True
  | ObsStopAccepting | ObsClosed | ObsExit _ => False
  end.

(** A trace up to the closing of the listening handle, and after it the
    ends of connections only. *)
Definition draining_trace (t : list obs) : Prop :=
  ∃ t1 t2, t = t1 ++ ObsStopAccepting :: t2 ∧
           Forall quiet t1 ∧ Forall (eq ObsConnEnd) t2.

(** The states of the process in server mode, after the events [past]:
    starting, accepting, draining, and the one exit. *)
Definition serving (past : list event) (s : pstate) : Prop :=
  sigterm_listeners s = [CbSigterm] ∧ http_pending s = [] ∧
  match run_status s with
  | Running =>
      match srv_listen s, srv_handle s with
      | Some (_, cb), None =>
          cb = CbListening ∧ srv_closing s = false ∧
          srv_close_listeners s = [] ∧ srv_conns s = 0%nat ∧ trace s = []
      | None, Some _ =>
          srv_closing s = false ∧ srv_close_listeners s = [] ∧
          Forall quiet (trace s)
      | None, None =>
          srv_closing s = true ∧ srv_close_listeners s ≠ [] ∧
          EvSigterm ∈ past ∧ draining_trace (trace s)
      | Some _, Some _ => False
      end
  | Exited code =>
      code = 0 ∧ srv_conns s = 0%nat ∧ srv_handle s = None ∧
      EvSigterm ∈ past ∧ list.last past = Some EvClose ∧
      ∃ t, trace s = t ++ [ObsClosed; ObsExit 0] ∧ draining_trace t
  | Crashed _ => True
  end.

(** In either mode: the listener of SIGTERM is the one the script
    registered, and a bound server has no ['listening'] due. *)
Definition wired (s : pstate) : Prop :=
  sigterm_listeners s = [CbSigterm] ∧
  (is_Some (srv_handle s) → srv_listen s = None).

(** ** Responses *)

(** The three headers set before the switch. *)
Definition cors (h : gmap string string) : gmap string string :=
  <["Access-Control-Allow-Headers" := "Content-Type"]>
    (<["Access-Control-Allow-Methods" := "GET, POST, PUT, DELETE"]>
       (<["Access-Control-Allow-Origin" := "*"]> h)).

(** The world after [reads] readings and one line on the console. *)
Definition after (reads : nat) (line : string) (w : world) : world :=
  World (timeline w) (reads + tick w) (stdout w ++ [line]) (stderr w).

(** The instant of the [k]-th reading from now. *)
Definition reading (k : nat) (w : world) : instant := timeline w (k + tick w)%nat.

(** What JSON.stringify writes of an object: the keys whose value is not
    [undefined]. *)
Fixpoint written (fs : list (string * value)) : list string :=
  match fs with
  | [] => []
  | (_, VUndefined) :: fs' => written fs'
  | (k, _) :: fs' => k :: written fs'
  end.

(** The keys in the JSON text of an object. *)
Definition written_keys (v : value) : list string :=
  match v with
  | VObj fs => written fs
  | _ => []
  end.

(** The property [k] of an object. *)
Definition prop (k : string) (v : value) : value :=
  match v with
  | VObj fs => field k fs
  | _ => VUndefined
  end.

(** [needle] occurs in [hay]. *)
Definition contains (needle hay : string) : Prop :=
  ∃ pre post, hay = pre +:+ needle +:+ post.

(** [s] follows [pattern], where a [d] of the pattern stands for a
    decimal digit and any other character for itself. *)
Fixpoint follows (pattern s : string) : bool :=
  match pattern, s with
  | EmptyString, EmptyString => true
  | String p pattern', String c s' =>
      (if bool_decide (p = "d"%char)
       then bool_decide (48 ≤ Z.of_nat (nat_of_ascii c) ≤ 57)
       else bool_decide (c = p))
      && follows pattern' s'
  | _, _ => false
  end.

(** The ISO 8601 form of [toISOString]: a date and a time of day in UTC
    to the millisecond, the year in four digits, or in six with a sign. *)
Definition iso_8601 (s : string) : bool :=
  follows "dddd-dd-ddTdd:dd:dd.dddZ" s
  || follows "+dddddd-dd-ddTdd:dd:dd.dddZ" s
  || follows "-dddddd-dd-ddTdd:dd:dd.dddZ" s.

Section Descriptions.
Context `{NodeLib}.
Variable proc : process.

(** The line of the log for a request. *)
Definition log_line (req : request) (pathname : value) (w : world) : string :=
  Date_toISOString (now (reading 0 w)) +:+ " - " +:+ method req +:+ " " +:+
  ToString pathname +:+ " - " +:+
  ToString (match req_headers req !! "user-agent" with
            | Some s => VStr s
            | None => VUndefined
            end).

(** The objects the three JSON arms serialize, from the readings they
    take of the world. *)
Definition health_object (w : world) : value :=
  VObj [ ("status", VStr "healthy");
         ("timestamp", VStr (Date_toISOString (now (reading 1 w))));
         ("uptime", VNum (uptime (reading 2 w)));
         ("environment", environment proc);
         ("version", VStr "1.0.0");
         ("node_version", VStr (version proc)) ].

Definition info_object (w : world) : value :=
  VObj [ ("platform", VStr (platform proc));
         ("architecture", VStr (arch proc));
         ("node_version", VStr (version proc));
         ("memory_usage", memory_object (memoryUsage (reading 1 w)));
         ("environment", environment proc);
         ("pid", num (pid proc)) ].

Definition not_found_object (pathname : value) (w : world) : value :=
  VObj [ ("error", VStr "Not Found");
         ("message", VStr ("Route " +:+ ToString pathname +:+ " not found"));
         ("timestamp", VStr (Date_toISOString (now (reading 1 w)))) ].

(** The response of each arm, and the world it leaves. *)
Definition arm_result (a : arm) (req : request) (pathname : value)
    (res : response) (w : world) : response * world :=
  let line := log_line req pathname w in
  match a with
  | ArmRoot =>
      (Response 200 (<["Content-Type" := "text/html"]> (cors (headers res)))
         (Some (page (ToString (environment proc))
                     (Date_toISOString (now (reading 0 w))))),
       after 1 line w)
  | ArmHealth =>
      (Response 200 (<["Content-Type" := "application/json"]> (cors (headers res)))
         (Some (JSON_stringify (health_object w) 2)),
       after 3 line w)
  | ArmInfo =>
      (Response 200 (<["Content-Type" := "application/json"]> (cors (headers res)))
         (Some (JSON_stringify (info_object w) 2)),
       after 2 line w)
  | ArmDefault =>
      (Response 404 (<["Content-Type" := "application/json"]> (cors (headers res)))
         (Some (JSON_stringify (not_found_object pathname w) 2)),
       after 2 line w)
  end.

End Descriptions.

(** The four kinds of response, told by what a client receives. *)
Definition is_variant `{NodeLib} (a : arm) (r : response) : Prop :=
  match a with
  | ArmRoot =>
      statusCode r = 200 ∧ headers r !! "Content-Type" = Some "text/html" ∧
      ∃ name timestamp, body r = Some (page name timestamp)
  | ArmHealth =>
      statusCode r = 200 ∧
      headers r !! "Content-Type" = Some "application/json" ∧
      ∃ obj, body r = Some (JSON_stringify obj 2) ∧
             written_keys obj = ["status"; "timestamp"; "uptime";
                                 "environment"; "version"; "node_version"]
  | ArmInfo =>
      statusCode r = 200 ∧
      headers r !! "Content-Type" = Some "application/json" ∧
      ∃ obj, body r = Some (JSON_stringify obj 2) ∧
             written_keys obj = ["platform"; "architecture"; "node_version";
                                 "memory_usage"; "environment"; "pid"]
  | ArmDefault =>
      statusCode r = 404 ∧
      headers r !! "Content-Type" = Some "application/json" ∧
      ∃ obj, body r = Some (JSON_stringify obj 2) ∧
             written_keys obj = ["error"; "message"; "timestamp"]
  end.

(** Two runs of the handler agree on what the route decides: both
    respond, with the same status, the same headers and the same kind of
    response, or both end with the same exception. *)
Definition same_route `{NodeLib} (o1 o2 : outcome response) : Prop :=
  match o1, o2 with
  | Return r1, Return r2 =>
      statusCode r1 = statusCode r2 ∧ headers r1 = headers r2 ∧
      ∃ a, is_variant a r1 ∧ is_variant a r2
  | Throw e1, Throw e2 => e1 = e2
  | Exit c1, Exit c2 => c1 = c2
  | _, _ => False
  end.

(** ** The self-test *)

(** What the self-test checks of the answer to [/health]: the status
    code, and of the parsed body the status, the timestamp and the
    uptime. *)
Definition health_ok (statusCode : Z) (parsed : completion value) : bool :=
  match parsed with
  | Normal (VObj fs) =>
      bool_decide (statusCode = 200)
      && strict_eq (field "status" fs) (VStr "healthy")
      && truthy (field "timestamp" fs)
      && strict_eq (VStr (typeof (field "uptime" fs))) (VStr "number")
  | _ => false
  end.

(** What it checks of the answer to [/info]: the status code, and that
    the parsed body has a platform. *)
Definition info_ok (statusCode : Z) (parsed : completion value) : bool :=
  match parsed with
  | Normal (VObj fs) =>
      bool_decide (statusCode = 200) && truthy (field "platform" fs)
  | _ => false
  end.

Section Requests.
Context `{NodeLib}.

Definition info_request (addr_port : value) : client_request :=
  ClientRequest ("http://localhost:" +:+ ToString addr_port +:+ "/info")
                CbInfoEnd None.

Definition health_request (addr_port : value) : client_request :=
  ClientRequest ("http://localhost:" +:+ ToString addr_port +:+ "/health")
                (CbHealthEnd addr_port) (Some CbHealthError).

(** The world once the arithmetic check has passed. *)
Definition w_started (w : world) : world :=
  say "✅ Math test passed" (say "🧪 Running tests..." w).

(** The self-test once the server is bound: the request to [/health]
    is in flight. *)
Definition test_started (w : world) (bound : Z) : pstate :=
  PState (w_started w) [CbSigterm] None (Some (Tcp bound)) 0 false []
         [health_request (num bound)] [] [ObsBound (Tcp bound)] Running.

(** The self-test once the answer to [/health] has passed its checks:
    the request to [/info] is in flight. *)
Definition health_passed (w : world) (bound : Z) : pstate :=
  PState (say "✅ Health endpoint test passed" (w_started w)) [CbSigterm] None
         (Some (Tcp bound)) 0 false [] [info_request (num bound)] []
         [ObsBound (Tcp bound)] Running.

(** How a failed stage leaves the process: its line on [stderr], the
    server closed, exit status 1. *)
Definition stage_failed (bound : Z) (before : world) (line : string) : pstate :=
  PState (cry line before) [CbSigterm] None None 0 true [] [] []
         [ObsBound (Tcp bound); ObsStopAccepting; ObsExit 1] (Exited 1).

End Requests.

(** ** Runs *)

(** The requests among the events of a run, in order. *)
Definition requests (evs : list event) : list request :=
  omap (λ ev, match ev with EvRequest req => Some req | _ => None end) evs.

(** What every response of the handler has: status 200 or 404, a body,
    the three CORS headers and a content type. *)
Definition complete_response (r : response) : Prop :=
  (statusCode r = 200 ∨ statusCode r = 404) ∧
  is_Some (body r) ∧
  headers r !! "Access-Control-Allow-Origin" = Some "*" ∧
  headers r !! "Access-Control-Allow-Methods" = Some "GET, POST, PUT, DELETE" ∧
  headers r !! "Access-Control-Allow-Headers" = Some "Content-Type" ∧
  is_Some (headers r !! "Content-Type").

(** [res] answers [req]: the target of the request has a pathname, the
    response is complete, and its status is 404 exactly when the
    pathname is none of the three routes. *)
Definition answers `{NodeLib} (req : request) (res : response) : Prop :=
  ∃ pathname, url_parse_pathname (url req) = Normal pathname ∧
              complete_response res ∧
              (statusCode res = 404 ↔
                 pathname ≠ VStr "/" ∧ pathname ≠ VStr "/health" ∧
                 pathname ≠ VStr "/info").

(** The process died of an uncaught exception. *)
Definition crashed (s : pstate) : Prop := ∃ e, run_status s = Crashed e.

(** [server.address().port] of a server bound to [b]. *)
Definition port_of (b : address) : value :=
  match b with
  | Tcp n => num n
  | Pipe _ => VUndefined
  end.

(** The client requests of the self-test in flight: none, or one, to
    the address the server was bound to: the one to [/health], or the
    one to [/info], which is sent once the answer to [/health] has
    passed. *)
Definition in_flight `{NodeLib} (s : pstate) : Prop :=
  match http_pending s with
  | [] => True
  | [r] =>
      ∃ b, head (trace s) = Some (ObsBound b) ∧
           (r = health_request (port_of b) ∨
            (r = info_request (port_of b) ∧
             "✅ Health endpoint test passed" ∈ stdout (the_world s)))
  | _ => False
  end.

(** Before the server is bound, nothing has been observed and no client
    request has been made. *)
Definition starting (s : pstate) : Prop :=
  is_Some (srv_listen s) → trace s = [] ∧ http_pending s = [].

(** [JSON.parse] reads back from the text [JSON.stringify] wrote of the
    object [v] an object with the strings of [v], and with numbers where
    [v] has numbers. *)
Definition reads_back `{NodeLib} (v : value) : bool :=
  match v, JSON_parse (JSON_stringify v 2) with
  | VObj fs, Normal (VObj fs') =>
      forallb (λ kx, match kx.2 with
                     | VStr a => strict_eq (field kx.1 fs') (VStr a)
                     | VNum _ => strict_eq (VStr (typeof (field kx.1 fs')))
                                           (VStr "number")
                     | _ => true
                     end) fs
  | _, _ => false
  end.

(** ** Concrete data for running the model *)

Module Example.

Definition mem : memory := Memory 50000000 8000000 6000000 1000000 10000.

(** The first readings differ, later ones repeat the last. *)
Definition clock (n : nat) : instant :=
  match n with
  | 0%nat => Instant 1762138000123 (Q2Qc (1 # 8)) mem
  | 1%nat => Instant 1762138000124 (Q2Qc (2 # 8)) mem
  | 2%nat => Instant 1762138000125 (Q2Qc (3 # 8)) mem
  | _ => Instant 1762138000999 (Q2Qc (4 # 1)) mem
  end.

Definition w0 : world := World clock 0 [] [].
Definition w1 : world := World clock 7 ["an earlier line"] [].

Definition proc_server : process :=
  Process (<["PORT" := "0"]> ∅) ["node"; "app.js"] "v20.11.0" "linux" "x64" 4242.

Definition proc_test : process :=
  Process ∅ ["node"; "app.js"; "test"] "v20.11.0" "linux" "x64" 4242.

Definition get (target : string) : request :=
  Request "GET" target (<["user-agent" := "curl/8.5.0"]> ∅).

(** The result of a run, for the runs that are possible. *)
Definition run (proc : process) (evs : list event) : pstate :=
  default (blank w0) (exec (H := Ref.lib) proc evs (boot (H := Ref.lib) proc w0)).

End Example.

(** The run of the self-test in which the second request fails. *)
Module Failure.

(** The answer of the server itself to [GET /health]. *)
Definition health_body : string :=
  match handler (H := Ref.lib) Example.proc_test (Example.get "/health")
                fresh_response Example.w0 with
  | (Return res, _) => default "" (body res)
  | _ => ""
  end.

Definition reset : error := Error "Error" "read ECONNRESET".

End Failure.

(** * Properties of the script *)

(** ** The switch *)

Lemma strict_eq_str (v : value) (s : string) :
  strict_eq v (VStr s) = true ↔ v = VStr s.
Proof.
  destruct v; simpl; try (split; [discriminate | congruence]).
  rewrite bool_decide_eq_true. split; congruence.
Qed.

Lemma strict_eq_str_false (v : value) (s : string) :
  strict_eq v (VStr s) = false ↔ v ≠ VStr s.
Proof.
  rewrite <- strict_eq_str. destruct (strict_eq v (VStr s)); split; congruence.
Qed.

Lemma switch_arm_root (p : value) : switch_arm p = ArmRoot ↔ p = VStr "/".
Proof.
  unfold switch_arm. rewrite <- strict_eq_str.
  repeat (case_match; try (split; congruence)).
Qed.

Lemma switch_arm_health (p : value) : switch_arm p = ArmHealth ↔ p = VStr "/health".
Proof.
  unfold switch_arm. split.
  - repeat (case_match; try discriminate). intros _. by apply strict_eq_str.
  - intros ->. reflexivity.
Qed.

Lemma switch_arm_info (p : value) : switch_arm p = ArmInfo ↔ p = VStr "/info".
Proof.
  unfold switch_arm. split.
  - repeat (case_match; try discriminate). intros _. by apply strict_eq_str.
  - intros ->. reflexivity.
Qed.

Lemma switch_arm_default (p : value) :
  switch_arm p = ArmDefault ↔ p ≠ VStr "/" ∧ p ≠ VStr "/health" ∧ p ≠ VStr "/info".
Proof.
  unfold switch_arm. rewrite <- !strict_eq_str_false.
  repeat (case_match; try (split; [discriminate | intros (? & ? & ?); congruence])).
  done.
Qed.

(** ** One run of the handler *)

Section Handler.
Context `{NodeLib}.
Variable proc : process.

Lemma handler_returns (req : request) (res : response) (w : world)
    (pathname : value) :
  url_parse_pathname (url req) = Normal pathname →
  handler proc req res w =
    (Return (arm_result proc (switch_arm pathname) req pathname res w).1,
     (arm_result proc (switch_arm pathname) req pathname res w).2).
Proof.
  intros Hparse. unfold handler, bind, new_Date, read. simpl.
  rewrite Hparse. simpl.
  destruct (switch_arm pathname); reflexivity.
Qed.

(** When [url.parse] throws, the handler has done nothing but read the
    clock: nothing is logged and no response is made. *)
Lemma handler_throws (req : request) (res : response) (w : world) (e : error) :
  url_parse_pathname (url req) = Abrupt e →
  handler proc req res w =
    (Throw e, World (timeline w) (S (tick w)) (stdout w) (stderr w)).
Proof.
  intros Hparse. unfold handler, bind, new_Date, read. simpl.
  by rewrite Hparse.
Qed.

Lemma environment_string : ∃ s, environment proc = VStr s ∧ s ≠ "".
Proof.
  unfold environment, JS.or, env_var.
  destruct (env proc !! "NODE_ENV") as [s|]; simpl.
  - destruct (bool_decide (s = "")) eqn:E; simpl.
    + by exists "development".
    + exists s. split; [done|]. by apply bool_decide_eq_false in E.
  - by exists "development".
Qed.

End Handler.

(** ** The routes *)

Lemma cors_origin (h : gmap string string) :
  cors h !! "Access-Control-Allow-Origin" = Some "*".
Proof. unfold cors. by rewrite 2!lookup_insert_ne, lookup_insert_eq by done. Qed.

Lemma cors_methods (h : gmap string string) :
  cors h !! "Access-Control-Allow-Methods" = Some "GET, POST, PUT, DELETE".
Proof. unfold cors. by rewrite lookup_insert_ne, lookup_insert_eq by done. Qed.

Lemma cors_headers (h : gmap string string) :
  cors h !! "Access-Control-Allow-Headers" = Some "Content-Type".
Proof. unfold cors. by rewrite lookup_insert_eq. Qed.

(** C1: a request whose parsed pathname is none of "/", "/health" and
    "/info" is answered with status 404, content type application/json
    and the JSON text of an object with the keys error, message and
    timestamp, where error is "Not Found" and message contains the
    pathname. *)
Theorem unmatched_path_not_found `{NodeLib} (proc : process) (req : request)
    (res : response) (w : world) (pathname : value) :
  url_parse_pathname (url req) = Normal pathname →
  pathname ≠ VStr "/" → pathname ≠ VStr "/health" → pathname ≠ VStr "/info" →
  ∃ res' w' obj message,
    handler proc req res w = (Return res', w') ∧
    statusCode res' = 404 ∧
    headers res' !! "Content-Type" = Some "application/json" ∧
    body res' = Some (JSON_stringify obj 2) ∧
    written_keys obj = ["error"; "message"; "timestamp"] ∧
    prop "error" obj = VStr "Not Found" ∧
    prop "message" obj = VStr message ∧
    message = "Route " +:+ ToString pathname +:+ " not found" ∧
    contains (ToString pathname) message ∧
    prop "timestamp" obj = VStr (Date_toISOString (now (reading 1 w))).
Proof.
  intros Hparse H1 H2 H3.
  pose proof (handler_returns proc req res w pathname Hparse) as Hrun.
  assert (switch_arm pathname = ArmDefault) as Harm by by apply switch_arm_default.
  rewrite Harm in Hrun. simpl in Hrun.
  eexists _, _, (not_found_object pathname w), _.
  split; [exact Hrun|]. simpl.
  repeat split; try reflexivity.
  - by rewrite lookup_insert_eq.
  - by exists "Route ", " not found".
Qed.

Lemma unmatched_path_not_found_witness :
  ∃ res' w' obj message,
    handler (H := Ref.lib) Example.proc_server (Example.get "/does-not-exist")
            fresh_response Example.w0 = (Return res', w') ∧
    statusCode res' = 404 ∧
    headers res' !! "Content-Type" = Some "application/json" ∧
    body res' = Some (Ref.to_json obj 2) ∧
    written_keys obj = ["error"; "message"; "timestamp"] ∧
    prop "error" obj = VStr "Not Found" ∧
    prop "message" obj = VStr message ∧
    message = "Route /does-not-exist not found" ∧
    contains "/does-not-exist" message ∧
    prop "timestamp" obj = VStr "2025-11-03T02:46:40.124Z".
Proof.
  apply (unmatched_path_not_found (H := Ref.lib) Example.proc_server
           (Example.get "/does-not-exist") fresh_response Example.w0
           (VStr "/does-not-exist")).
  - reflexivity.
  - discriminate.
  - discriminate.
  - discriminate.
Defined.

(** C2: a request with pathname "/health" is answered with status 200,
    content type application/json and the JSON text of an object with
    exactly the keys status, timestamp, uptime, environment, version and
    node_version: status is "healthy", timestamp what [toISOString] makes
    of the clock, in ISO 8601 form when [toISOString] writes that, uptime
    the number the runtime reports, not negative when the runtime reports
    none that is, environment the configured name, version "1.0.0" and
    node_version the version of the runtime. *)
Theorem health_route `{NodeLib} (proc : process) (req : request)
    (res : response) (w : world) :
  url_parse_pathname (url req) = Normal (VStr "/health") →
  iso_8601 (Date_toISOString (now (reading 1 w))) = true →
  (0 ≤ uptime (reading 2 w))%Qc →
  ∃ res' w' obj timestamp up name,
    handler proc req res w = (Return res', w') ∧
    statusCode res' = 200 ∧
    headers res' !! "Content-Type" = Some "application/json" ∧
    body res' = Some (JSON_stringify obj 2) ∧
    written_keys obj = ["status"; "timestamp"; "uptime"; "environment";
                        "version"; "node_version"] ∧
    prop "status" obj = VStr "healthy" ∧
    prop "timestamp" obj = VStr timestamp ∧
    timestamp = Date_toISOString (now (reading 1 w)) ∧
    iso_8601 timestamp = true ∧
    prop "uptime" obj = VNum up ∧ typeof (prop "uptime" obj) = "number" ∧
    up = uptime (reading 2 w) ∧ (0 ≤ up)%Qc ∧
    prop "environment" obj = VStr name ∧ environment proc = VStr name ∧
    prop "version" obj = VStr "1.0.0" ∧
    prop "node_version" obj = VStr (version proc).
Proof.
  intros Hparse Hiso Hup.
  pose proof (handler_returns proc req res w _ Hparse) as Hrun.
  simpl in Hrun.
  destruct (environment_string proc) as (name & Hname & _).
  eexists _, _, (health_object proc w), _, _, name.
  split; [exact Hrun|]. simpl. rewrite Hname.
  repeat split; try reflexivity.
  - by rewrite lookup_insert_eq.
  - exact Hiso.
  - exact Hup.
Qed.

Lemma health_route_witness :
  ∃ res' w' obj timestamp up name,
    handler (H := Ref.lib) Example.proc_server (Example.get "/health")
            fresh_response Example.w0 = (Return res', w') ∧
    statusCode res' = 200 ∧
    headers res' !! "Content-Type" = Some "application/json" ∧
    body res' = Some (Ref.to_json obj 2) ∧
    written_keys obj = ["status"; "timestamp"; "uptime"; "environment";
                        "version"; "node_version"] ∧
    prop "status" obj = VStr "healthy" ∧
    prop "timestamp" obj = VStr timestamp ∧
    timestamp = "2025-11-03T02:46:40.124Z" ∧
    iso_8601 timestamp = true ∧
    prop "uptime" obj = VNum up ∧ typeof (prop "uptime" obj) = "number" ∧
    up = Q2Qc (3 # 8) ∧ (0 ≤ up)%Qc ∧
    prop "environment" obj = VStr name ∧
    environment Example.proc_server = VStr name ∧
    prop "version" obj = VStr "1.0.0" ∧
    prop "node_version" obj = VStr "v20.11.0".
Proof.
  apply (health_route (H := Ref.lib) Example.proc_server
           (Example.get "/health") fresh_response Example.w0).
  - vm_compute. reflexivity.
  - vm_compute. reflexivity.
  - by vm_compute.
Defined.

(** C3: a request with pathname "/info" is answered with status 200,
    content type application/json and the JSON text of an object with
    exactly the keys platform, architecture, node_version, memory_usage,
    environment and pid, the same keys on every call; platform is the
    platform of the runtime, a non-empty string when the runtime names
    one. *)
Theorem info_route `{NodeLib} (proc : process) (req1 req2 : request)
    (res1 res2 : response) (w1 w2 : world) :
  url_parse_pathname (url req1) = Normal (VStr "/info") →
  url_parse_pathname (url req2) = Normal (VStr "/info") →
  platform proc ≠ "" →
  ∃ r1 w1' obj1 r2 w2' obj2 pf,
    handler proc req1 res1 w1 = (Return r1, w1') ∧
    handler proc req2 res2 w2 = (Return r2, w2') ∧
    statusCode r1 = 200 ∧ statusCode r2 = 200 ∧
    headers r1 !! "Content-Type" = Some "application/json" ∧
    headers r2 !! "Content-Type" = Some "application/json" ∧
    body r1 = Some (JSON_stringify obj1 2) ∧
    body r2 = Some (JSON_stringify obj2 2) ∧
    written_keys obj1 = ["platform"; "architecture"; "node_version";
                         "memory_usage"; "environment"; "pid"] ∧
    written_keys obj2 = written_keys obj1 ∧
    prop "platform" obj1 = VStr pf ∧ pf = platform proc ∧ pf ≠ "" ∧
    prop "architecture" obj1 = VStr (arch proc) ∧
    prop "node_version" obj1 = VStr (version proc) ∧
    prop "memory_usage" obj1 = memory_object (memoryUsage (reading 1 w1)) ∧
    prop "memory_usage" obj2 = memory_object (memoryUsage (reading 1 w2)) ∧
    prop "environment" obj1 = environment proc ∧
    prop "pid" obj1 = num (pid proc) ∧ prop "pid" obj2 = num (pid proc).
Proof.
  intros Hparse1 Hparse2 Hpf.
  pose proof (handler_returns proc req1 res1 w1 _ Hparse1) as Hrun1.
  pose proof (handler_returns proc req2 res2 w2 _ Hparse2) as Hrun2.
  simpl in Hrun1, Hrun2.
  destruct (environment_string proc) as (name & Hname & _).
  eexists _, _, (info_object proc w1), _, _, (info_object proc w2), _.
  split; [exact Hrun1|]. split; [exact Hrun2|]. simpl. rewrite Hname.
  repeat split; try reflexivity; try done.
  - by rewrite lookup_insert_eq.
  - by rewrite lookup_insert_eq.
Qed.

Lemma info_route_witness :
  ∃ r1 w1' obj1 r2 w2' obj2 pf,
    handler (H := Ref.lib) Example.proc_server (Example.get "/info")
            fresh_response Example.w0 = (Return r1, w1') ∧
    handler (H := Ref.lib) Example.proc_server (Example.get "/info?again")
            fresh_response Example.w1 = (Return r2, w2') ∧
    statusCode r1 = 200 ∧ statusCode r2 = 200 ∧
    headers r1 !! "Content-Type" = Some "application/json" ∧
    headers r2 !! "Content-Type" = Some "application/json" ∧
    body r1 = Some (Ref.to_json obj1 2) ∧
    body r2 = Some (Ref.to_json obj2 2) ∧
    written_keys obj1 = ["platform"; "architecture"; "node_version";
                         "memory_usage"; "environment"; "pid"] ∧
    written_keys obj2 = written_keys obj1 ∧
    prop "platform" obj1 = VStr pf ∧ pf = "linux" ∧ pf ≠ "" ∧
    prop "architecture" obj1 = VStr "x64" ∧
    prop "node_version" obj1 = VStr "v20.11.0" ∧
    prop "memory_usage" obj1
      = memory_object (Memory 50000000 8000000 6000000 1000000 10000) ∧
    prop "memory_usage" obj2
      = memory_object (Memory 50000000 8000000 6000000 1000000 10000) ∧
    prop "environment" obj1 = VStr "development" ∧
    prop "pid" obj1 = num 4242 ∧ prop "pid" obj2 = num 4242.
Proof.
  apply (info_route (H := Ref.lib) Example.proc_server
           (Example.get "/info") (Example.get "/info?again")
           fresh_response fresh_response Example.w0 Example.w1).
  - reflexivity.
  - reflexivity.
  - discriminate.
Defined.

(** C4: whichever arm of the switch a request takes, its response carries
    the three CORS headers: allow-origin "*", allow-methods
    "GET, POST, PUT, DELETE", allow-headers "Content-Type". *)
Theorem cors_on_every_response `{NodeLib} (proc : process) (req : request)
    (res : response) (w : world) (pathname : value) :
  url_parse_pathname (url req) = Normal pathname →
  ∃ res' w',
    handler proc req res w = (Return res', w') ∧
    headers res' !! "Access-Control-Allow-Origin" = Some "*" ∧
    headers res' !! "Access-Control-Allow-Methods" = Some "GET, POST, PUT, DELETE" ∧
    headers res' !! "Access-Control-Allow-Headers" = Some "Content-Type".
Proof.
  intros Hparse.
  pose proof (handler_returns proc req res w pathname Hparse) as Hrun.
  eexists _, _. split; [exact Hrun|].
  destruct (switch_arm pathname); simpl;
    rewrite !lookup_insert_ne by done;
    auto using cors_origin, cors_methods, cors_headers.
Qed.

Lemma cors_on_every_response_witness :
  ∃ res' w',
    handler (H := Ref.lib) Example.proc_server (Example.get "/no/such/page")
            fresh_response Example.w0 = (Return res', w') ∧
    headers res' !! "Access-Control-Allow-Origin" = Some "*" ∧
    headers res' !! "Access-Control-Allow-Methods" = Some "GET, POST, PUT, DELETE" ∧
    headers res' !! "Access-Control-Allow-Headers" = Some "Content-Type".
Proof.
  apply (cors_on_every_response (H := Ref.lib) Example.proc_server
           (Example.get "/no/such/page") fresh_response Example.w0
           (VStr "/no/such/page")).
  reflexivity.
Defined.

(** C6: a request with pathname "/" is answered with status 200, content
    type text/html and the fixed page, into which the configured
    environment name and the timestamp read when the request came in are
    put. *)
Theorem root_route `{NodeLib} (proc : process) (req : request)
    (res : response) (w : world) :
  url_parse_pathname (url req) = Normal (VStr "/") →
  ∃ res' w' name timestamp,
    handler proc req res w = (Return res', w') ∧
    statusCode res' = 200 ∧
    headers res' !! "Content-Type" = Some "text/html" ∧
    environment proc = VStr name ∧
    timestamp = Date_toISOString (now (timeline w (tick w))) ∧
    body res' = Some (page_head +:+ name +:+ page_middle +:+ timestamp
                      +:+ page_tail).
Proof.
  intros Hparse.
  pose proof (handler_returns proc req res w _ Hparse) as Hrun.
  simpl in Hrun.
  destruct (environment_string proc) as (name & Hname & _).
  eexists _, _, name, _.
  split; [exact Hrun|]. simpl. rewrite Hname.
  repeat split; try reflexivity.
  by rewrite lookup_insert_eq.
Qed.

Lemma root_route_witness :
  ∃ res' w' name timestamp,
    handler (H := Ref.lib) Example.proc_server (Example.get "/")
            fresh_response Example.w0 = (Return res', w') ∧
    statusCode res' = 200 ∧
    headers res' !! "Content-Type" = Some "text/html" ∧
    environment Example.proc_server = VStr name ∧
    timestamp = "2025-11-03T02:46:40.123Z" ∧
    body res' = Some (page_head +:+ name +:+ page_middle +:+ timestamp
                      +:+ page_tail).
Proof.
  apply (root_route (H := Ref.lib) Example.proc_server (Example.get "/")
           fresh_response Example.w0).
  reflexivity.
Defined.

(** ** What decides the response *)

Lemma arm_result_variant `{NodeLib} (proc : process) (a : arm) (req : request)
    (pathname : value) (res : response) (w : world) :
  is_variant a (arm_result proc a req pathname res w).1.
Proof.
  destruct (environment_string proc) as (name & Hname & _).
  destruct a; simpl; (split; [reflexivity|]);
    (split; [by rewrite lookup_insert_eq|]).
  - by eexists _, _.
  - eexists. split; [reflexivity|]. simpl. by rewrite Hname.
  - eexists. split; [reflexivity|]. simpl. by rewrite Hname.
  - eexists. split; [reflexivity|]. done.
Qed.

(** The route is a function of the parsed pathname: of the request
    nothing else, and of the world nothing, has a part in it. *)
Lemma route_by_pathname `{NodeLib} (proc : process) (req1 req2 : request)
    (res : response) (w1 w2 : world) :
  url_parse_pathname (url req1) = url_parse_pathname (url req2) →
  same_route (handler proc req1 res w1).1 (handler proc req2 res w2).1.
Proof.
  intros Heq.
  destruct (url_parse_pathname (url req1)) as [pathname|e] eqn:Hparse1.
  - symmetry in Heq.
    rewrite (handler_returns proc req1 res w1 pathname Hparse1).
    rewrite (handler_returns proc req2 res w2 pathname Heq).
    simpl. split; [|split].
    + by destruct (switch_arm pathname).
    + by destruct (switch_arm pathname).
    + exists (switch_arm pathname). split; apply arm_result_variant.
  - symmetry in Heq.
    rewrite (handler_throws proc req1 res w1 e Hparse1).
    by rewrite (handler_throws proc req2 res w2 e Heq).
Qed.

(** C5: two requests that differ in their method only are answered
    alike: in the same world the outcome of the handler is the same,
    response and all, and in any two worlds the status, the headers
    (content type among them) and the kind of response are the same. *)
Theorem method_not_inspected `{NodeLib} (proc : process) (m1 m2 target : string)
    (hs : gmap string string) (res : response) :
  (∀ w, (handler proc (Request m1 target hs) res w).1
        = (handler proc (Request m2 target hs) res w).1) ∧
  (∀ w1 w2, same_route (handler proc (Request m1 target hs) res w1).1
                       (handler proc (Request m2 target hs) res w2).1).
Proof.
  split.
  - intros w. unfold handler, bind, new_Date, read. simpl.
    destruct (url_parse_pathname target) as [pathname|e]; simpl; try done.
    destruct (switch_arm pathname); reflexivity.
  - intros w1 w2. by apply route_by_pathname.
Qed.

(** C10: the response is decided by the parsed pathname: two requests
    whose targets parse to the same pathname, whatever query string
    either carries, get the same status, the same headers and the same
    kind of response. *)
Theorem query_string_ignored `{NodeLib} (proc : process) (req1 req2 : request)
    (res : response) (w1 w2 : world) :
  url_parse_pathname (url req1) = url_parse_pathname (url req2) →
  same_route (handler proc req1 res w1).1 (handler proc req2 res w2).1.
Proof. apply route_by_pathname. Qed.

Lemma query_string_ignored_witness :
  same_route (H := Ref.lib)
    (handler (H := Ref.lib) Example.proc_server (Example.get "/health?x=1")
             fresh_response Example.w0).1
    (handler (H := Ref.lib) Example.proc_server (Example.get "/health")
             fresh_response Example.w1).1.
Proof.
  apply (query_string_ignored (H := Ref.lib) Example.proc_server
           (Example.get "/health?x=1") (Example.get "/health")
           fresh_response Example.w0 Example.w1).
  reflexivity.
Defined.

(** The reference [toISOString] at the ends of its two forms. *)
Example reference_dates :
  Ref.toISOString 0 = "1970-01-01T00:00:00.000Z" ∧
  Ref.toISOString 951782400000 = "2000-02-29T00:00:00.000Z" ∧
  Ref.toISOString 253402300799999 = "9999-12-31T23:59:59.999Z" ∧
  Ref.toISOString 253402300800000 = "+010000-01-01T00:00:00.000Z" ∧
  Ref.toISOString (-62167219200000) = "0000-01-01T00:00:00.000Z" ∧
  Ref.toISOString (-62167219200001) = "-000001-12-31T23:59:59.999Z" ∧
  forallb (λ ms, iso_8601 (Ref.toISOString ms))
          [0; 951782400000; 253402300799999; 253402300800000;
           -62167219200000; -62167219200001] = true.
Proof. vm_compute. done. Qed.

(** The scenarios of the specification, run with the reference library:
    [GET /health] is answered 200 with a body that parses to an object
    whose status is "healthy"; [GET /does-not-exist] is answered 404 with
    a message that names the path; [POST /health?x=1] is answered as
    [GET /health] is. *)
Example scenario_health :
  match handler (H := Ref.lib) Example.proc_server (Example.get "/health")
                fresh_response Example.w0 with
  | (Return res, _) =>
      statusCode res = 200 ∧
      ∃ fs, Ref.from_json (default "" (body res)) = Normal (VObj fs) ∧
            field "status" fs = VStr "healthy" ∧
            typeof (field "uptime" fs) = "number"
  | _ => False
  end.
Proof. vm_compute. split; [done|]. eexists. by split. Qed.

Example scenario_not_found :
  match handler (H := Ref.lib) Example.proc_server
                (Example.get "/does-not-exist") fresh_response Example.w0 with
  | (Return res, _) =>
      statusCode res = 404 ∧
      ∃ fs, Ref.from_json (default "" (body res)) = Normal (VObj fs) ∧
            field "error" fs = VStr "Not Found" ∧
            field "message" fs = VStr "Route /does-not-exist not found"
  | _ => False
  end.
Proof. vm_compute. split; [done|]. eexists. by split. Qed.

Example scenario_post :
  (handler (H := Ref.lib) Example.proc_server
           (Request "POST" "/health?x=1" ∅) fresh_response Example.w0).1
  = (handler (H := Ref.lib) Example.proc_server
             (Request "GET" "/health" ∅) fresh_response Example.w0).1.
Proof. vm_compute. reflexivity. Qed.

(** Through the reference [url.parse], a query string makes no
    difference: the pathname of [path?query] is the pathname of [path],
    and so is the route. *)
Lemma before_query_app (path query : string) :
  Ref.before_query (path +:+ "?" +:+ query) = Ref.before_query path.
Proof.
  induction path as [|c path IH]; simpl; [done|].
  case_bool_decide; [done|]. by rewrite IH.
Qed.

Lemma all_plain_app (s t : string) :
  Ref.all_plain (s +:+ t) = Ref.all_plain s && Ref.all_plain t.
Proof.
  induction s as [|c s IH]; simpl; [done|]. by rewrite IH, andb_assoc.
Qed.

Lemma leading_slashes_app (path query : string) :
  Ref.leading_slashes (path +:+ "?" +:+ query) = Ref.leading_slashes path.
Proof.
  destruct path as [|c1 [|c2 [|c3 path]]];
    cbv [Ref.leading_slashes String.append]; fold String.append; try done.
  - change (Ref.is_slash "?") with false. by destruct query.
  - change (Ref.is_slash "?") with false. by rewrite andb_false_r.
Qed.

Lemma simple_path_app (path query : string) :
  Ref.all_plain query = true →
  Ref.simple_path (path +:+ "?" +:+ query) = Ref.simple_path path.
Proof.
  intros Hq. unfold Ref.simple_path.
  rewrite all_plain_app, leading_slashes_app.
  change (Ref.all_plain ("?" +:+ query)) with (true && Ref.all_plain query).
  by rewrite Hq, andb_true_r.
Qed.

Lemma reference_pathname_without_query (path query : string) :
  Ref.all_plain query = true →
  Ref.pathname_of (path +:+ "?" +:+ query) = Ref.pathname_of path.
Proof.
  intros Hq. unfold Ref.pathname_of.
  by rewrite simple_path_app, before_query_app.
Qed.

Lemma reference_route_without_query (proc : process) (m1 m2 path query : string)
    (hs1 hs2 : gmap string string) (res : response) (w1 w2 : world) :
  Ref.all_plain query = true →
  same_route (H := Ref.lib)
    (handler (H := Ref.lib) proc (Request m1 (path +:+ "?" +:+ query) hs1) res w1).1
    (handler (H := Ref.lib) proc (Request m2 path hs2) res w2).1.
Proof.
  intros Hq. apply (route_by_pathname (H := Ref.lib)). simpl.
  by apply reference_pathname_without_query.
Qed.

(** ** Starting the process *)

Lemma argv2_test (proc : process) :
  strict_eq (argv2 proc) (VStr "test") = true ↔ test_mode proc.
Proof.
  unfold argv2, test_mode. rewrite strict_eq_str.
  destruct (argv proc !! 2%nat); split; congruence.
Qed.

Lemma argv2_not_test (proc : process) :
  strict_eq (argv2 proc) (VStr "test") = false ↔ ¬ test_mode proc.
Proof.
  rewrite <- argv2_test. destruct (strict_eq _ _); split; congruence.
Qed.

Lemma two_plus_two : strict_eq (VNum (2 + 2)%Qc) (num 4) = true.
Proof. apply bool_decide_eq_true. by apply Qc_is_canon. Qed.

Section Boot.
Context `{NodeLib}.
Variables (proc : process) (w : world).

(** Server mode: the SIGTERM listener is registered and the server has
    been asked to listen where [port] says. *)
Lemma boot_server (a : address) :
  ¬ test_mode proc →
  listen_target (port proc) = Normal a →
  boot proc w = PState w [CbSigterm] (Some (a, CbListening)) None 0 false
                       [] [] [] [] Running.
Proof.
  intros Hmode Hport. apply argv2_not_test in Hmode.
  unfold boot, main, bind, process_on_SIGTERM, modify. simpl.
  rewrite Hmode. simpl.
  unfold server_listen, bind, modify. by rewrite Hport.
Qed.

(** A port the runtime refuses ends the process before it serves. *)
Lemma boot_server_refused (e : error) :
  ¬ test_mode proc →
  listen_target (port proc) = Abrupt e →
  boot proc w = PState w [CbSigterm] None None 0 false [] [] [] []
                       (Crashed e).
Proof.
  intros Hmode Hport. apply argv2_not_test in Hmode.
  unfold boot, main, bind, process_on_SIGTERM, modify. simpl.
  rewrite Hmode. simpl.
  unfold server_listen, bind, modify. by rewrite Hport.
Qed.

(** Self-test mode: the arithmetic check passes and the server has been
    asked for a port of the operating system's choice. *)
Lemma boot_test (a : address) :
  test_mode proc →
  listen_target (num 0) = Normal a →
  boot proc w =
    PState (World (timeline w) (tick w)
                  ((stdout w ++ ["🧪 Running tests..."]) ++ ["✅ Math test passed"])
                  (stderr w))
           [CbSigterm] (Some (a, CbTestListening)) None 0 false
           [] [] [] [] Running.
Proof.
  intros Hmode Hport. apply argv2_test in Hmode.
  unfold boot, main, bind, process_on_SIGTERM, modify, try_catch,
    assert_strictEqual.
  rewrite Hmode, two_plus_two. simpl.
  unfold server_listen, bind, modify. by rewrite Hport.
Qed.

Lemma boot_test_refused (e : error) :
  test_mode proc →
  listen_target (num 0) = Abrupt e →
  boot proc w =
    PState (World (timeline w) (tick w)
                  ((stdout w ++ ["🧪 Running tests..."]) ++ ["✅ Math test passed"])
                  (stderr w))
           [CbSigterm] None None 0 false [] [] [] [] (Crashed e).
Proof.
  intros Hmode Hport. apply argv2_test in Hmode.
  unfold boot, main, bind, process_on_SIGTERM, modify, try_catch,
    assert_strictEqual.
  rewrite Hmode, two_plus_two. simpl.
  unfold server_listen, bind, modify. by rewrite Hport.
Qed.

End Boot.

(** [process.env.PORT || 3000]: the variable when it is set and not
    empty, 3000 otherwise. *)
Lemma port_configured (proc : process) (s : string) :
  env proc !! "PORT" = Some s → s ≠ "" → port proc = VStr s.
Proof.
  intros Henv Hs. unfold port, JS.or, env_var. rewrite Henv. simpl.
  by rewrite bool_decide_eq_false_2.
Qed.

Lemma port_default (proc : process) :
  env proc !! "PORT" = None ∨ env proc !! "PORT" = Some "" →
  port proc = num 3000.
Proof.
  unfold port, JS.or, env_var. by intros [-> | ->].
Qed.

(** ** The callbacks, run *)

Section Callbacks.
Context `{NodeLib}.
Variable proc : process.

Lemma log_run (line : string) (s : pstate) :
  in_world (console_log line) s = (Return tt, logged line s).
Proof. reflexivity. Qed.

Lemma error_run (line : string) (s : pstate) :
  in_world (console_error line) s = (Return tt, complained line s).
Proof. reflexivity. Qed.

Lemma on_sigterm_run (s : pstate) :
  on_sigterm s =
    (Return tt,
     close_server (Some CbServerClosed)
       (logged "Received SIGTERM, shutting down gracefully" s)).
Proof. reflexivity. Qed.

Lemma on_server_closed_run (s : pstate) :
  on_server_closed s = (Exit 0, logged "Server closed" s).
Proof. reflexivity. Qed.

Lemma on_listening_run (s : pstate) :
  on_listening proc s =
    (Return tt,
     logged ("Node.js version: " +:+ version proc)
       (logged ("Environment: " +:+ ToString (environment proc))
          (logged ("🚀 Server running at http://localhost:" +:+
                   ToString (port proc) +:+ "/") s))).
Proof. reflexivity. Qed.

Lemma on_health_error_run (err : error) (s : pstate) :
  on_health_error err s =
    (Exit 1,
     close_server None
       (complained ("❌ HTTP request failed: " +:+ err_message err) s)).
Proof. reflexivity. Qed.

(** The handler never leaves by [process.exit]. *)
Lemma handler_outcome (req : request) (res : response) (w : world) :
  (∃ r w', handler proc req res w = (Return r, w')) ∨
  (∃ e w', handler proc req res w = (Throw e, w')).
Proof.
  destruct (url_parse_pathname (url req)) as [pathname|e] eqn:Hparse.
  - left. rewrite (handler_returns proc req res w pathname Hparse). eauto.
  - right. rewrite (handler_throws proc req res w e Hparse). eauto.
Qed.

(** Serving a request touches the world and the list of responses, and
    nothing of the server; it ends the process when the handler
    throws. *)
Lemma serve_run (req : request) (s : pstate) :
  ∃ w' l st,
    settle (serve proc req s) = set_status st (set_sent l (set_world w' s)) ∧
    (st = run_status s ∨ ∃ e, st = Crashed e).
Proof.
  unfold serve, bind, in_world, zoom.
  destruct (handler_outcome req fresh_response (the_world s))
    as [(r & w' & Hrun) | (e & w' & Hrun)]; rewrite Hrun; simpl.
  - exists w', (sent s ++ [r]), (run_status s). split; [|by left].
    by destruct s.
  - exists w', (sent s), (Crashed e). split; [|by right; eauto].
    by destruct s.
Qed.

Lemma serve_returns (req : request) (s : pstate) (pathname : value) :
  url_parse_pathname (url req) = Normal pathname →
  serve proc req s =
    (Return tt,
     let '(res, w') := arm_result proc (switch_arm pathname) req pathname
                                  fresh_response (the_world s) in
     set_sent (sent s ++ [res]) (set_world w' s)).
Proof.
  intros Hparse. unfold serve, bind, in_world, zoom.
  rewrite (handler_returns proc req fresh_response _ pathname Hparse).
  by destruct (arm_result _ _ _ _ _ _).
Qed.

End Callbacks.

(** ** Single events *)

Section Events.
Context `{NodeLib}.
Variable proc : process.

Lemma deliver_listening (s : pstate) (asked : address) (cb : listening_cb)
    (bound : address) :
  run_status s = Running → srv_listen s = Some (asked, cb) →
  bound_ok asked bound = true →
  deliver proc (EvListening bound) s =
    Some (settle (call_listening proc cb
            (observe (ObsBound bound)
               (set_handle (Some bound) (set_listen None s))))).
Proof. intros Hst Hl Hb. unfold deliver. by rewrite Hst, Hl, Hb. Qed.

Lemma deliver_connection (s : pstate) (h : address) :
  run_status s = Running → srv_listen s = None → srv_handle s = Some h →
  deliver proc EvConnection s =
    Some (observe ObsAccept (set_conns (S (srv_conns s)) s)).
Proof. intros Hst Hl Hh. unfold deliver. by rewrite Hst, Hl, Hh. Qed.

Lemma deliver_request (s : pstate) (req : request) (n : nat) :
  run_status s = Running → srv_listen s = None → srv_conns s = S n →
  deliver proc (EvRequest req) s = Some (settle (serve proc req s)).
Proof. intros Hst Hl Hn. unfold deliver. by rewrite Hst, Hl, Hn. Qed.

Lemma deliver_http_end (s : pstate) (i : nat) (r : client_request)
    (statusCode : Z) (data : string) :
  run_status s = Running → srv_listen s = None →
  http_pending s !! i = Some r →
  deliver proc (EvHttpEnd i statusCode data) s =
    Some (settle (call_response (on_end r) statusCode data
            (set_pending (delete i (http_pending s)) s))).
Proof. intros Hst Hl Hr. unfold deliver. by rewrite Hst, Hl, Hr. Qed.

Lemma deliver_http_error (s : pstate) (i : nat) (r : client_request)
    (err : error) :
  run_status s = Running → srv_listen s = None →
  http_pending s !! i = Some r →
  deliver proc (EvHttpError i err) s =
    Some (settle (match on_error r with
                  | Some cb => call_error cb err
                  | None => throw err
                  end (set_pending (delete i (http_pending s)) s))).
Proof.
  intros Hst Hl Hr. unfold deliver. rewrite Hst, Hl, Hr.
  by destruct (on_error r).
Qed.

End Events.

(** ** The callbacks of the self-test *)

Lemma num_inj (a b : Z) : num a = num b ↔ a = b.
Proof.
  split; [|by intros ->]. unfold num. intros Heq.
  assert (Q2Qc (inject_Z a) = Q2Qc (inject_Z b)) as Hq by congruence.
  apply Q2Qc_eq_iff in Hq. unfold Qeq in Hq. simpl in Hq. lia.
Qed.

Lemma strict_eq_num (a b : Z) : strict_eq (num a) (num b) = bool_decide (a = b).
Proof.
  unfold strict_eq, num. apply bool_decide_ext.
  rewrite <- num_inj. unfold num. split; congruence.
Qed.

Section SelfTest.
Context `{NodeLib}.

Local Arguments strict_eq : simpl never.
Local Arguments truthy : simpl never.
Local Arguments typeof : simpl never.
Local Arguments num : simpl never.

Ltac run_checks :=
  unfold try_catch, bind, library, assert_strictEqual, assert, get_prop,
    ret, throw;
  repeat (simpl; first
    [ rewrite strict_eq_num
    | match goal with
      | |- context [match ?c with Normal _ => _ | Abrupt _ => _ end] =>
          destruct c as [[]|] eqn:?
      | |- context [if ?b then _ else _] => destruct b eqn:?
      end ]);
  simpl in *; try discriminate; try (eexists; reflexivity); try reflexivity.

(** The checks pass: the success is logged and the request to [/info]
    is sent, with no ['error'] listener. *)
Lemma on_health_end_pass (addr_port : value) (statusCode : Z) (data : string)
    (s : pstate) :
  health_ok statusCode (JSON_parse data) = true →
  on_health_end addr_port statusCode data s =
    (Return tt,
     set_pending (http_pending s ++ [info_request addr_port])
                 (logged "✅ Health endpoint test passed" s)).
Proof.
  unfold health_ok, on_health_end. intros Hok.
  destruct (JSON_parse data) as [[]|]; try discriminate.
  apply andb_prop in Hok as [Hok Hup]. apply andb_prop in Hok as [Hok Hts].
  apply andb_prop in Hok as [Hsc Hst].
  unfold try_catch, bind, library, assert_strictEqual, assert, get_prop.
  simpl. rewrite strict_eq_num, Hsc. simpl. rewrite Hst. simpl.
  rewrite Hts. simpl. rewrite Hup. reflexivity.
Qed.

(** A check fails: the stage and the message of the failed check are
    printed, the server is closed and the process exits with status
    1. *)
Lemma on_health_end_fail (addr_port : value) (statusCode : Z) (data : string)
    (s : pstate) :
  health_ok statusCode (JSON_parse data) = false →
  ∃ message,
    on_health_end addr_port statusCode data s =
      (Exit 1,
       close_server None
         (complained ("❌ Health endpoint test failed: " +:+ message) s)).
Proof.
  unfold health_ok, on_health_end. intros Hok. run_checks.
  all: unfold truthy in *; congruence.
Qed.

Lemma on_info_end_pass (statusCode : Z) (data : string) (s : pstate) :
  info_ok statusCode (JSON_parse data) = true →
  on_info_end statusCode data s =
    (Exit 0,
     close_server None
       (logged "🎉 All tests passed successfully!"
          (logged "✅ Info endpoint test passed" s))).
Proof.
  unfold info_ok, on_info_end. intros Hok.
  destruct (JSON_parse data) as [[]|]; try discriminate.
  apply andb_prop in Hok as [Hsc Hpf].
  unfold try_catch, bind, library, assert_strictEqual, assert, get_prop.
  simpl. rewrite strict_eq_num, Hsc. simpl. rewrite Hpf. reflexivity.
Qed.

Lemma on_info_end_fail (statusCode : Z) (data : string) (s : pstate) :
  info_ok statusCode (JSON_parse data) = false →
  ∃ message,
    on_info_end statusCode data s =
      (Exit 1,
       close_server None
         (complained ("❌ Info endpoint test failed: " +:+ message) s)).
Proof.
  unfold info_ok, on_info_end. intros Hok. run_checks.
  all: unfold truthy in *; congruence.
Qed.

End SelfTest.

(** ** Shutting down *)

Section Shutdown.
Context `{NodeLib}.
Variable proc : process.

Lemma serving_boot (w : world) : ¬ test_mode proc → serving [] (boot proc w).
Proof.
  intros Hmode.
  destruct (listen_target (port proc)) as [a|e] eqn:Hport.
  - rewrite (boot_server proc w a Hmode Hport). by repeat split.
  - rewrite (boot_server_refused proc w e Hmode Hport). by repeat split.
Qed.

Lemma draining_trace_end (t : list obs) :
  draining_trace t → draining_trace (t ++ [ObsConnEnd]).
Proof.
  intros (t1 & t2 & -> & Ht1 & Ht2).
  exists t1, (t2 ++ [ObsConnEnd]). split; [|split]; [|done|].
  - by rewrite <- app_assoc.
  - apply Forall_app. split; [done|]. by constructor.
Qed.

Lemma serving_step (past : list event) (s s' : pstate) (ev : event) :
  serving past s → deliver proc ev s = Some s' → serving (past ++ [ev]) s'.
Proof.
  intros (Hsig & Hpend & Hphase) Hd. unfold deliver in Hd.
  destruct (run_status s) eqn:Hst; [|done|done].
  destruct (srv_listen s) as [[asked cb]|] eqn:Hl;
    destruct (srv_handle s) as [h|] eqn:Hh; try done.
  - (* starting *)
    destruct Hphase as (-> & Hc & Hcl & Hn & Ht).
    destruct ev; try done.
    + destruct (bound_ok asked bound); [|done]. simplify_eq.
      unfold call_listening. rewrite on_listening_run. unfold serving. simpl.
      rewrite Hsig, Hpend, Hst, Hc, Hcl, Ht. repeat split; try done.
      repeat constructor.
    + simplify_eq. unfold serving. simpl. by rewrite Hsig, Hpend.
  - (* accepting *)
    destruct Hphase as (Hc & Hcl & Ht).
    destruct ev; try done.
    + simplify_eq. unfold serving. simpl.
      rewrite Hsig, Hpend, Hst, Hl, Hh, Hc, Hcl. repeat split; try done.
      apply Forall_app. split; [done|]. by repeat constructor.
    + destruct (srv_conns s); [done|]. simplify_eq.
      destruct (serve_run proc req s) as (w' & l & st & -> & Hst').
      unfold serving. simpl. rewrite Hsig, Hpend, Hl, Hh.
      destruct Hst' as [-> | [e ->]]; [|done]. by rewrite Hst.
    + destruct (srv_conns s); [done|]. simplify_eq.
      unfold serving. simpl.
      rewrite Hsig, Hpend, Hst, Hl, Hh, Hc, Hcl. repeat split; try done.
      apply Forall_app. split; [done|]. by repeat constructor.
    + by rewrite Hc in Hd.
    + rewrite Hsig in Hd. simplify_eq.
      unfold call_all, call_signal, bind. rewrite on_sigterm_run.
      unfold serving, close_server. simpl. rewrite Hh. simpl.
      rewrite Hsig, Hpend, Hst, Hcl. simpl.
      repeat split; try done.
      * apply elem_of_app. right. by apply list_elem_of_singleton.
      * by exists (trace s), [].
    + by rewrite Hpend in Hd.
    + by rewrite Hpend in Hd.
  - (* draining *)
    destruct Hphase as (Hc & Hcl & Hpast & Ht).
    destruct ev; try done.
    + destruct (srv_conns s); [done|]. simplify_eq.
      destruct (serve_run proc req s) as (w' & l & st & -> & Hst').
      unfold serving. simpl. rewrite Hsig, Hpend, Hl, Hh.
      destruct Hst' as [-> | [e ->]]; [|done]. rewrite Hst.
      repeat split; try done. apply elem_of_app. by left.
    + destruct (srv_conns s); [done|]. simplify_eq.
      unfold serving. simpl.
      rewrite Hsig, Hpend, Hst, Hl, Hh, Hc. repeat split; try done.
      * apply elem_of_app. by left.
      * by apply draining_trace_end.
    + rewrite Hc in Hd. simpl in Hd.
      destruct (bool_decide (srv_conns s = 0%nat)) eqn:Hn; [|done].
      apply bool_decide_eq_true in Hn.
      destruct (srv_close_listeners s) as [|[] cbs] eqn:Hcbs; [done|].
      simplify_eq. unfold call_all, call_close, bind.
      rewrite on_server_closed_run. unfold serving. simpl.
      rewrite Hsig, Hpend, Hh, Hn. repeat split; try done.
      * apply elem_of_app. by left.
      * by rewrite list.last_snoc.
      * exists (trace s). split; [|done]. by rewrite <- app_assoc.
    + rewrite Hsig in Hd. simplify_eq.
      unfold call_all, call_signal, bind. rewrite on_sigterm_run.
      unfold serving, close_server. simpl. rewrite Hh. simpl.
      rewrite Hsig, Hpend, Hst. simpl.
      repeat split; try done.
      * by destruct (srv_close_listeners s).
      * apply elem_of_app. by left.
    + by rewrite Hpend in Hd.
    + by rewrite Hpend in Hd.
Qed.

Lemma serving_exec (evs past : list event) (s s' : pstate) :
  serving past s → exec proc evs s = Some s' → serving (past ++ evs) s'.
Proof.
  revert past s. induction evs as [|ev evs IH]; intros past s Hs Hx.
  - simpl in Hx. simplify_eq. by rewrite app_nil_r.
  - simpl in Hx. destruct (deliver proc ev s) as [s1|] eqn:Hd; [|done].
    rewrite (cons_middle ev), app_assoc. apply (IH _ s1); [|done].
    by apply (serving_step past s).
Qed.

End Shutdown.

Section Wired.
Context `{NodeLib}.
Variable proc : process.

Lemma wired_boot (w : world) : wired (boot proc w).
Proof.
  destruct (decide (test_mode proc)) as [Hmode | Hmode].
  - destruct (listen_target (num 0)) as [a|e] eqn:Hport.
    + rewrite (boot_test proc w a Hmode Hport). split; [done|]. by intros [? ?].
    + by rewrite (boot_test_refused proc w e Hmode Hport).
  - destruct (listen_target (port proc)) as [a|e] eqn:Hport.
    + rewrite (boot_server proc w a Hmode Hport). split; [done|]. by intros [? ?].
    + by rewrite (boot_server_refused proc w e Hmode Hport).
Qed.

Lemma wired_closed (cb : option close_cb) (s : pstate) (o : outcome unit) :
  sigterm_listeners s = [CbSigterm] →
  wired (settle (o, close_server cb s)).
Proof.
  intros Hsig. unfold close_server.
  destruct o, (srv_handle s); simpl; (split; [done|]); by intros [? ?].
Qed.

Lemma wired_step (s s' : pstate) (ev : event) :
  wired s → deliver proc ev s = Some s' → wired s'.
Proof.
  intros [Hsig Hbound] Hd. unfold deliver in Hd.
  destruct (run_status s) eqn:Hst; [|done|done].
  destruct (srv_listen s) as [[asked cb]|] eqn:Hl.
  - destruct ev; try done.
    + destruct (bound_ok asked bound); [|done]. simplify_eq.
      destruct cb; unfold call_listening.
      * rewrite on_listening_run. by split.
      * unfold on_test_listening, bind, server_address_port, gets, http_get,
          modify, ret. simpl. by destruct bound.
    + simplify_eq. split; [done|]. simpl. intros Hh.
      by rewrite Hbound in Hl.
  - destruct ev as [bound|err| |req| | | |i sc data|i err]; try done.
    + destruct (srv_handle s); [|done]. by simplify_eq.
    + destruct (srv_conns s); [done|]. simplify_eq.
      destruct (serve_run proc req s) as (w' & l & st & -> & _). by split.
    + destruct (srv_conns s); [done|]. by simplify_eq.
    + destruct (srv_closing s && _ && _); [|done]. simplify_eq.
      destruct (srv_close_listeners s) as [|[] cbs].
      * by split.
      * unfold call_all, call_close, bind. rewrite on_server_closed_run.
        by split.
    + rewrite Hsig in Hd. simplify_eq.
      unfold call_all, call_signal, bind. rewrite on_sigterm_run.
      by apply (wired_closed _ _ (Return tt)).
    + destruct (http_pending s !! i) as [r|]; [|done]. simplify_eq.
      destruct (on_end r) as [addr_port|]; unfold call_response.
      * destruct (health_ok sc (JSON_parse data)) eqn:Hok.
        -- rewrite on_health_end_pass by done. by split.
        -- destruct (on_health_end_fail addr_port sc data
                       (set_pending (delete i (http_pending s)) s) Hok)
             as [message ->].
           by apply wired_closed.
      * destruct (info_ok sc (JSON_parse data)) eqn:Hok.
        -- rewrite on_info_end_pass by done. by apply wired_closed.
        -- destruct (on_info_end_fail sc data
                       (set_pending (delete i (http_pending s)) s) Hok)
             as [message ->].
           by apply wired_closed.
    + destruct (http_pending s !! i) as [r|]; [|done].
      destruct (on_error r) as [[]|]; simplify_eq.
      * unfold call_error. rewrite on_health_error_run. by apply wired_closed.
      * by split.
Qed.

Lemma wired_exec (evs : list event) (s s' : pstate) :
  wired s → exec proc evs s = Some s' → wired s'.
Proof.
  revert s. induction evs as [|ev evs IH]; intros s Hs Hx.
  - simpl in Hx. by simplify_eq.
  - simpl in Hx. destruct (deliver proc ev s) as [s1|] eqn:Hd; [|done].
    apply (IH s1); [|done]. by apply (wired_step s s1 ev).
Qed.

End Wired.

Section Draining.
Context `{NodeLib}.
Variable proc : process.

(** ['close'] does not fire while a connection is open. *)
Lemma close_waits (s : pstate) :
  srv_conns s ≠ 0%nat → deliver proc EvClose s = None.
Proof.
  intros Hn. unfold deliver.
  destruct (run_status s); [|done|done].
  destruct (srv_listen s) as [[? ?]|]; [done|].
  rewrite (bool_decide_eq_false_2 (srv_conns s = 0%nat)) by done.
  by rewrite andb_false_r.
Qed.

(** No connection is accepted once the handle is closed. *)
Lemma closed_handle_refuses (s : pstate) :
  srv_handle s = None → deliver proc EvConnection s = None.
Proof.
  intros Hh. unfold deliver.
  destruct (run_status s); [|done|done].
  destruct (srv_listen s) as [[? ?]|]; [done|]. by rewrite Hh.
Qed.

(** A closing server with [n] connections left: when they have ended,
    ['close'] fires and the callback of the SIGTERM handler exits with
    status 0. *)
Lemma drain (n : nat) (s : pstate) :
  run_status s = Running → srv_listen s = None → srv_handle s = None →
  srv_closing s = true → srv_close_listeners s ≠ [] → srv_conns s = n →
  ∃ s', exec proc (replicate n EvDisconnect ++ [EvClose]) s = Some s' ∧
        run_status s' = Exited 0 ∧
        trace s' = trace s ++ replicate n ObsConnEnd ++ [ObsClosed; ObsExit 0].
Proof.
  revert s. induction n as [|n IH]; intros s Hst Hl Hh Hc Hcl Hn.
  - simpl. unfold deliver. rewrite Hst, Hl, Hc, Hh, Hn. simpl.
    destruct (srv_close_listeners s) as [|[] cbs]; [done|].
    unfold call_all, call_close, bind. rewrite on_server_closed_run.
    eexists. split; [reflexivity|]. simpl.
    split; [done|]. by rewrite <- app_assoc.
  - simpl. unfold deliver at 1. rewrite Hst, Hl, Hn.
    destruct (IH (observe ObsConnEnd (set_conns n s))) as (s' & Hx & Hs' & Ht);
      try done.
    exists s'. split; [done|]. split; [done|].
    rewrite Ht. simpl. by rewrite <- app_assoc.
Qed.

End Draining.

(** C8: a SIGTERM while the server accepts connections closes the
    listening handle at once, so that no further connection is accepted;
    the process keeps running, ['close'] cannot fire while a connection is
    open, and when the connections have ended ['close'] fires and its
    callback exits with status 0.  In server mode this is the only exit:
    the process exits with status 0, after a SIGTERM, on ['close'], the
    closing of the handle before it in the trace and only ends of
    connections in between. *)
Theorem graceful_shutdown `{NodeLib} (proc : process) (w : world)
    (evs : list event) (s : pstate) :
  exec proc evs (boot proc w) = Some s →
  (run_status s = Running → is_Some (srv_handle s) →
     ∃ s1, deliver proc EvSigterm s = Some s1 ∧
           run_status s1 = Running ∧
           srv_handle s1 = None ∧
           trace s1 = trace s ++ [ObsStopAccepting] ∧
           deliver proc EvConnection s1 = None ∧
           (srv_conns s ≠ 0%nat → deliver proc EvClose s1 = None) ∧
           ∃ s2, exec proc (replicate (srv_conns s) EvDisconnect ++ [EvClose]) s1
                   = Some s2 ∧
                 run_status s2 = Exited 0 ∧
                 trace s2 = trace s1 ++ replicate (srv_conns s) ObsConnEnd
                            ++ [ObsClosed; ObsExit 0]) ∧
  (¬ test_mode proc →
   ∀ code, run_status s = Exited code →
     code = 0 ∧ EvSigterm ∈ evs ∧ list.last evs = Some EvClose ∧
     srv_conns s = 0%nat ∧
     ∃ t1 t2, trace s = t1 ++ ObsStopAccepting :: t2 ++ [ObsClosed; ObsExit 0] ∧
              Forall quiet t1 ∧ Forall (eq ObsConnEnd) t2).
Proof.
  intros Hx. split.
  - intros Hst [h Hh].
    destruct (wired_exec proc evs _ s (wired_boot proc w) Hx) as [Hsig Hl].
    specialize (Hl (ltac:(by rewrite Hh))).
    set (s1 := close_server (Some CbServerClosed)
                 (logged "Received SIGTERM, shutting down gracefully" s)).
    assert (deliver proc EvSigterm s = Some s1) as Hd.
    { unfold deliver. rewrite Hst, Hl, Hsig.
      unfold call_all, call_signal, bind. by rewrite on_sigterm_run. }
    assert (run_status s1 = Running ∧ srv_listen s1 = None ∧
            srv_handle s1 = None ∧ srv_closing s1 = true ∧
            srv_close_listeners s1 ≠ [] ∧ srv_conns s1 = srv_conns s ∧
            trace s1 = trace s ++ [ObsStopAccepting])
      as (Hst1 & Hl1 & Hh1 & Hc1 & Hcl1 & Hn1 & Ht1).
    { unfold s1, close_server. simpl. rewrite Hh. simpl.
      repeat split; try done. by destruct (srv_close_listeners s). }
    exists s1. repeat split; try done.
    + by apply closed_handle_refuses.
    + intros Hn. apply close_waits. by rewrite Hn1.
    + by apply drain.
  - intros Hmode code Hst.
    pose proof (serving_exec proc evs [] _ s (serving_boot proc w Hmode) Hx)
      as (Hsig & Hpend & Hphase).
    rewrite app_nil_l, Hst in Hphase.
    destruct Hphase as (-> & Hn & _ & Hin & Hlast & t & Ht & t1 & t2 & -> & Ht1 & Ht2).
    repeat split; try done.
    exists t1, t2. split; [|done]. rewrite Ht. by rewrite <- app_assoc.
Qed.

Lemma graceful_shutdown_witness :
  let proc := Example.proc_server in
  let evs := [EvListening (Tcp 49152); EvConnection; EvConnection; EvDisconnect] in
  let s := Example.run proc evs in
  (run_status s = Running → is_Some (srv_handle s) →
     ∃ s1, deliver (H := Ref.lib) proc EvSigterm s = Some s1 ∧
           run_status s1 = Running ∧
           srv_handle s1 = None ∧
           trace s1 = trace s ++ [ObsStopAccepting] ∧
           deliver (H := Ref.lib) proc EvConnection s1 = None ∧
           (srv_conns s ≠ 0%nat → deliver (H := Ref.lib) proc EvClose s1 = None) ∧
           ∃ s2, exec (H := Ref.lib) proc
                      (replicate (srv_conns s) EvDisconnect ++ [EvClose]) s1
                   = Some s2 ∧
                 run_status s2 = Exited 0 ∧
                 trace s2 = trace s1 ++ replicate (srv_conns s) ObsConnEnd
                            ++ [ObsClosed; ObsExit 0]) ∧
  (¬ test_mode proc →
   ∀ code, run_status s = Exited code →
     code = 0 ∧ EvSigterm ∈ evs ∧ list.last evs = Some EvClose ∧
     srv_conns s = 0%nat ∧
     ∃ t1 t2, trace s = t1 ++ ObsStopAccepting :: t2 ++ [ObsClosed; ObsExit 0] ∧
              Forall quiet t1 ∧ Forall (eq ObsConnEnd) t2).
Proof.
  intros proc evs s.
  apply (graceful_shutdown (H := Ref.lib) proc Example.w0 evs s).
  vm_compute. reflexivity.
Defined.

(** A whole shutdown, run: a request is served, SIGTERM arrives while
    its connection is open, another request is served on that
    connection, the connection ends, ['close'] fires. *)
Example shutdown_run :
  let s := Example.run Example.proc_server
             [EvListening (Tcp 49152); EvConnection; EvRequest (Example.get "/");
              EvSigterm; EvRequest (Example.get "/health"); EvDisconnect;
              EvClose] in
  run_status s = Exited 0 ∧
  trace s = [ObsBound (Tcp 49152); ObsAccept; ObsStopAccepting; ObsConnEnd;
             ObsClosed; ObsExit 0] ∧
  statusCode <$> sent s = [200; 200] ∧
  stdout (the_world s) =
    ["🚀 Server running at http://localhost:0/";
     "Environment: development";
     "Node.js version: v20.11.0";
     "2025-11-03T02:46:40.123Z - GET / - curl/8.5.0";
     "Received SIGTERM, shutting down gracefully";
     "2025-11-03T02:46:40.124Z - GET /health - curl/8.5.0";
     "Server closed"].
Proof. vm_compute. done. Qed.

(** ** The port *)

(** C9: with PORT set to "0" the configured port is the string "0", not
    3000; in server mode the script asks to listen on it, which is a
    request for a port of the operating system's choice; once bound to
    whichever port that is, the server answers GET / with status 200 and
    content type text/html. *)
Theorem port_zero_is_ephemeral `{NodeLib} (proc : process) (w : world)
    (bound : Z) (hs : gmap string string) :
  env proc !! "PORT" = Some "0" →
  ¬ test_mode proc →
  listen_target (VStr "0") = Normal (Tcp 0) →
  url_parse_pathname "/" = Normal (VStr "/") →
  0 < bound ≤ 65535 →
  port proc = VStr "0" ∧ port proc ≠ num 3000 ∧
  run_status (boot proc w) = Running ∧
  srv_listen (boot proc w) = Some (Tcp 0, CbListening) ∧
  ∃ s s' res,
    deliver proc (EvListening (Tcp bound)) (boot proc w) = Some s ∧
    srv_handle s = Some (Tcp bound) ∧
    trace s = [ObsBound (Tcp bound)] ∧
    exec proc [EvConnection; EvRequest (Request "GET" "/" hs)] s = Some s' ∧
    run_status s' = Running ∧
    sent s' = [res] ∧
    statusCode res = 200 ∧
    headers res !! "Content-Type" = Some "text/html".
Proof.
  intros Henv Hmode Htarget Hparse Hbound.
  assert (port proc = VStr "0") as Hport by by apply port_configured.
  assert (listen_target (port proc) = Normal (Tcp 0)) as Htarget'
    by by rewrite Hport.
  rewrite (boot_server proc w (Tcp 0) Hmode Htarget'). rewrite Hport.
  split; [done|]. split; [done|]. split; [done|]. split; [done|].
  set (s0 := PState w [CbSigterm] (Some (Tcp 0, CbListening)) None 0 false
                    [] [] [] [] Running).
  rewrite (deliver_listening proc s0 (Tcp 0) CbListening (Tcp bound))
    by (try done; unfold bound_ok; rewrite bool_decide_eq_true_2 by done;
        by apply bool_decide_eq_true_2).
  unfold call_listening. rewrite on_listening_run. unfold settle.
  eexists _, _, _. split; [reflexivity|].
  split; [reflexivity|]. split; [reflexivity|].
  unfold exec.
  erewrite deliver_connection by reflexivity.
  erewrite deliver_request by reflexivity.
  rewrite (serve_returns proc (Request "GET" "/" hs) _ (VStr "/") Hparse).
  replace (switch_arm (VStr "/")) with ArmRoot by done.
  unfold arm_result, settle.
  split; [reflexivity|].
  split; [reflexivity|]. split; [reflexivity|]. split; [reflexivity|].
  apply lookup_insert_eq.
Qed.

Lemma port_zero_is_ephemeral_witness :
  port Example.proc_server = VStr "0" ∧ port Example.proc_server ≠ num 3000 ∧
  run_status (boot (H := Ref.lib) Example.proc_server Example.w0) = Running ∧
  srv_listen (boot (H := Ref.lib) Example.proc_server Example.w0)
    = Some (Tcp 0, CbListening) ∧
  ∃ s s' res,
    deliver (H := Ref.lib) Example.proc_server (EvListening (Tcp 49152))
            (boot (H := Ref.lib) Example.proc_server Example.w0) = Some s ∧
    srv_handle s = Some (Tcp 49152) ∧
    trace s = [ObsBound (Tcp 49152)] ∧
    exec (H := Ref.lib) Example.proc_server
         [EvConnection; EvRequest (Request "GET" "/" ∅)] s = Some s' ∧
    run_status s' = Running ∧
    sent s' = [res] ∧
    statusCode res = 200 ∧
    headers res !! "Content-Type" = Some "text/html".
Proof.
  apply (port_zero_is_ephemeral (H := Ref.lib) Example.proc_server Example.w0
           49152 ∅).
  - vm_compute. reflexivity.
  - unfold test_mode. vm_compute. discriminate.
  - vm_compute. reflexivity.
  - vm_compute. reflexivity.
  - lia.
Defined.

(** ** The self-test *)

Section SelfTestRuns.
Context `{NodeLib}.
Variables (proc : process) (w : world) (bound : Z).
Hypothesis Hmode : test_mode proc.
Hypothesis Hzero : listen_target (num 0) = Normal (Tcp 0).
Hypothesis Hbound : 0 < bound ≤ 65535.

Lemma selftest_listening :
  deliver proc (EvListening (Tcp bound)) (boot proc w) = Some (test_started w bound).
Proof.
  rewrite (boot_test proc w (Tcp 0) Hmode Hzero).
  rewrite (deliver_listening proc _ (Tcp 0) CbTestListening (Tcp bound));
    try done.
  unfold bound_ok. rewrite bool_decide_eq_true_2 by done.
  by apply bool_decide_eq_true_2.
Qed.

Lemma selftest_health_error (err : error) :
  deliver proc (EvHttpError 0 err) (test_started w bound) =
    Some (stage_failed bound (w_started w)
            ("❌ HTTP request failed: " +:+ err_message err)).
Proof.
  by rewrite (deliver_http_error proc _ 0 (health_request (num bound))).
Qed.

Lemma selftest_health_fail (statusCode : Z) (data : string) :
  health_ok statusCode (JSON_parse data) = false →
  ∃ message,
    deliver proc (EvHttpEnd 0 statusCode data) (test_started w bound) =
      Some (stage_failed bound (w_started w)
              ("❌ Health endpoint test failed: " +:+ message)).
Proof.
  intros Hko.
  rewrite (deliver_http_end proc _ 0 (health_request (num bound))) by done.
  change (call_response (on_end (health_request (num bound))) statusCode data)
    with (on_health_end (num bound) statusCode data).
  destruct (on_health_end_fail (num bound) statusCode data
              (set_pending (delete 0%nat (http_pending (test_started w bound)))
                           (test_started w bound)) Hko) as [message ->].
  by exists message.
Qed.

Lemma selftest_health_pass (statusCode : Z) (data : string) :
  health_ok statusCode (JSON_parse data) = true →
  deliver proc (EvHttpEnd 0 statusCode data) (test_started w bound) = Some (health_passed w bound).
Proof.
  intros Hok.
  rewrite (deliver_http_end proc _ 0 (health_request (num bound))) by done.
  change (call_response (on_end (health_request (num bound))) statusCode data)
    with (on_health_end (num bound) statusCode data).
  by rewrite on_health_end_pass.
Qed.

Lemma selftest_info_fail (statusCode : Z) (data : string) :
  info_ok statusCode (JSON_parse data) = false →
  ∃ message,
    deliver proc (EvHttpEnd 0 statusCode data) (health_passed w bound) =
      Some (stage_failed bound (say "✅ Health endpoint test passed" (w_started w))
              ("❌ Info endpoint test failed: " +:+ message)).
Proof.
  intros Hko.
  rewrite (deliver_http_end proc _ 0 (info_request (num bound))) by done.
  change (call_response (on_end (info_request (num bound))) statusCode data)
    with (on_info_end statusCode data).
  destruct (on_info_end_fail statusCode data
              (set_pending (delete 0%nat (http_pending (health_passed w bound)))
                           (health_passed w bound)) Hko) as [message ->].
  by exists message.
Qed.

Lemma selftest_info_pass (statusCode : Z) (data : string) :
  info_ok statusCode (JSON_parse data) = true →
  deliver proc (EvHttpEnd 0 statusCode data) (health_passed w bound) =
    Some (PState (say "🎉 All tests passed successfully!"
                    (say "✅ Info endpoint test passed"
                       (say "✅ Health endpoint test passed" (w_started w))))
                 [CbSigterm] None None 0 true [] [] []
                 [ObsBound (Tcp bound); ObsStopAccepting; ObsExit 0]
                 (Exited 0)).
Proof.
  intros Hok.
  rewrite (deliver_http_end proc _ 0 (info_request (num bound))) by done.
  change (call_response (on_end (info_request (num bound))) statusCode data)
    with (on_info_end statusCode data).
  by rewrite on_info_end_pass.
Qed.

(** The request to [/info] fails: nothing listens to its ['error'], and
    the process dies of the exception with the server as it was and
    nothing printed. *)
Lemma selftest_info_error (err : error) :
  deliver proc (EvHttpError 0 err) (health_passed w bound) =
    Some (PState (say "✅ Health endpoint test passed" (w_started w)) [CbSigterm]
                 None (Some (Tcp bound)) 0 false [] [] []
                 [ObsBound (Tcp bound)] (Crashed err)).
Proof.
  by rewrite (deliver_http_error proc _ 0 (info_request (num bound))).
Qed.

End SelfTestRuns.

(** The verdict of the self-test on the two answers: status 0 when both
    pass their checks; when a check fails, the line of the failed stage
    on [stderr] and status 1, the second request not being sent when the
    first answer fails. *)
Lemma selftest_verdict `{NodeLib} (proc : process) (w : world) (bound : Z)
    (sc1 sc2 : Z) (data1 data2 : string) :
  test_mode proc →
  listen_target (num 0) = Normal (Tcp 0) →
  0 < bound ≤ 65535 →
  let first := [EvListening (Tcp bound); EvHttpEnd 0 sc1 data1] in
  let both := first ++ [EvHttpEnd 0 sc2 data2] in
  if health_ok sc1 (JSON_parse data1) then
    ∃ s, exec proc both (boot proc w) = Some s ∧
      if info_ok sc2 (JSON_parse data2) then
        run_status s = Exited 0 ∧ stderr (the_world s) = stderr w
      else
        run_status s = Exited 1 ∧
        ∃ message, stderr (the_world s) =
                     stderr w ++ ["❌ Info endpoint test failed: " +:+ message]
  else
    ∃ s, exec proc first (boot proc w) = Some s ∧
      run_status s = Exited 1 ∧
      http_pending s = [] ∧
      ∃ message, stderr (the_world s) =
                   stderr w ++ ["❌ Health endpoint test failed: " +:+ message].
Proof.
  intros Hmode Hzero Hbound first both. unfold both, first. simpl.
  rewrite (selftest_listening proc w bound Hmode Hzero Hbound).
  destruct (health_ok sc1 (JSON_parse data1)) eqn:Hh.
  - rewrite (selftest_health_pass proc w bound sc1 data1 Hh).
    destruct (info_ok sc2 (JSON_parse data2)) eqn:Hi.
    + rewrite (selftest_info_pass proc w bound sc2 data2 Hi). by eexists.
    + destruct (selftest_info_fail proc w bound sc2 data2 Hi) as [message ->].
      eexists. split; [done|]. split; [done|]. by exists message.
  - destruct (selftest_health_fail proc w bound sc1 data1 Hh) as [message ->].
    eexists. split; [done|]. split; [done|]. split; [done|]. by exists message.
Qed.

(** C7: the self-test on a network failure.  When the request to
    [/health] fails, the script prints its line on [stderr], closes the
    server and exits with status 1.  The request to [/info] has no
    ['error'] listener: when it fails after the answer to [/health] has
    passed its checks, the process dies of the uncaught exception, which
    the parent sees as status 1; the script prints nothing about it and
    does not close the server. *)
Theorem selftest_info_request_error `{NodeLib} (proc : process) (w : world)
    (bound statusCode : Z) (data : string) (err : error) :
  test_mode proc →
  listen_target (num 0) = Normal (Tcp 0) →
  0 < bound ≤ 65535 →
  health_ok statusCode (JSON_parse data) = true →
  (∃ s, exec proc [EvListening (Tcp bound); EvHttpError 0 err] (boot proc w)
          = Some s ∧
        run_status s = Exited 1 ∧
        stderr (the_world s)
          = stderr w ++ ["❌ HTTP request failed: " +:+ err_message err] ∧
        srv_handle s = None) ∧
  (∃ s, exec proc [EvListening (Tcp bound); EvHttpEnd 0 statusCode data;
                   EvHttpError 0 err] (boot proc w) = Some s ∧
        run_status s = Crashed err ∧
        exit_status (run_status s) = Some 1 ∧
        stderr (the_world s) = stderr w ∧
        stdout (the_world s)
          = stdout w ++ ["🧪 Running tests..."; "✅ Math test passed";
                         "✅ Health endpoint test passed"] ∧
        srv_handle s = Some (Tcp bound) ∧
        trace s = [ObsBound (Tcp bound)]).
Proof.
  intros Hmode Hzero Hbound Hok. split.
  - simpl. rewrite (selftest_listening proc w bound Hmode Hzero Hbound).
    rewrite (selftest_health_error proc w bound err). by eexists.
  - simpl. rewrite (selftest_listening proc w bound Hmode Hzero Hbound).
    rewrite (selftest_health_pass proc w bound statusCode data Hok).
    rewrite (selftest_info_error proc w bound err).
    eexists. split; [done|]. simpl. repeat split; try done.
    by rewrite <- !app_assoc.
Qed.

Lemma selftest_info_request_error_witness :
  (∃ s, exec (H := Ref.lib) Example.proc_test
             [EvListening (Tcp 49152); EvHttpError 0 Failure.reset]
             (boot (H := Ref.lib) Example.proc_test Example.w0) = Some s ∧
        run_status s = Exited 1 ∧
        stderr (the_world s)
          = stderr Example.w0 ++ ["❌ HTTP request failed: " +:+ "read ECONNRESET"] ∧
        srv_handle s = None) ∧
  (∃ s, exec (H := Ref.lib) Example.proc_test
             [EvListening (Tcp 49152); EvHttpEnd 0 200 Failure.health_body;
              EvHttpError 0 Failure.reset]
             (boot (H := Ref.lib) Example.proc_test Example.w0) = Some s ∧
        run_status s = Crashed Failure.reset ∧
        exit_status (run_status s) = Some 1 ∧
        stderr (the_world s) = stderr Example.w0 ∧
        stdout (the_world s)
          = stdout Example.w0 ++ ["🧪 Running tests..."; "✅ Math test passed";
                                  "✅ Health endpoint test passed"] ∧
        srv_handle s = Some (Tcp 49152) ∧
        trace s = [ObsBound (Tcp 49152)]).
Proof.
  apply (selftest_info_request_error (H := Ref.lib) Example.proc_test
           Example.w0 49152 200 Failure.health_body Failure.reset).
  - vm_compute. reflexivity.
  - vm_compute. reflexivity.
  - lia.
  - vm_compute. reflexivity.
Defined.

(** The self-test against the server itself: both answers pass. *)
Example selftest_passes :
  let info_body :=
    match handler (H := Ref.lib) Example.proc_test (Example.get "/info")
                  fresh_response Example.w0 with
    | (Return res, _) => default "" (body res)
    | _ => ""
    end in
  let s := Example.run Example.proc_test
             [EvListening (Tcp 49152); EvHttpEnd 0 200 Failure.health_body;
              EvHttpEnd 0 200 info_body] in
  run_status s = Exited 0 ∧
  stdout (the_world s) =
    ["🧪 Running tests..."; "✅ Math test passed";
     "✅ Health endpoint test passed"; "✅ Info endpoint test passed";
     "🎉 All tests passed successfully!"] ∧
  stderr (the_world s) = [].
Proof. vm_compute. done. Qed.

(** * Further properties *)

(** ** The configuration *)

(** [process.env.NAME || fallback]: the variable when it is set and not
    empty, the fallback otherwise. *)
Lemma variable_or (proc : process) (name : string) (fallback : value) :
  JS.or (env_var proc name) fallback =
    match env proc !! name with
    | Some s => if bool_decide (s = "") then fallback else VStr s
    | None => fallback
    end.
Proof.
  unfold JS.or, env_var. destruct (env proc !! name) as [s|]; [|done].
  simpl. by case_bool_decide.
Qed.

(** X1: [port] and [environment] are never falsy.  [environment] is the
    variable NODE_ENV when it is set and not empty, and "development"
    when it is unset or empty; [port] is the variable PORT, a string,
    when it is set and not empty, and the number 3000 when it is unset
    or empty. *)
Theorem config_defaults (proc : process) :
  truthy (port proc) = true ∧ truthy (environment proc) = true ∧
  (port proc = num 3000 ↔
     env proc !! "PORT" = None ∨ env proc !! "PORT" = Some "") ∧
  (∀ s, port proc = VStr s ↔ env proc !! "PORT" = Some s ∧ s ≠ "") ∧
  (∀ s, environment proc = VStr s ↔
     (env proc !! "NODE_ENV" = Some s ∧ s ≠ "") ∨
     (s = "development" ∧
      (env proc !! "NODE_ENV" = None ∨ env proc !! "NODE_ENV" = Some ""))).
Proof.
  unfold port, environment.
  rewrite (variable_or proc "PORT"), (variable_or proc "NODE_ENV").
  split; [|split; [|split; [|split]]].
  - destruct (env proc !! "PORT") as [p|]; [|done].
    case_bool_decide; [done|]. simpl. by rewrite bool_decide_eq_false_2.
  - destruct (env proc !! "NODE_ENV") as [n|]; [|done].
    case_bool_decide; [done|]. simpl. by rewrite bool_decide_eq_false_2.
  - destruct (env proc !! "PORT") as [p|]; [|by split; [left|]].
    case_bool_decide as Hp.
    + subst. by split; [right|].
    + split; [done|]. intros [? | [= ?]]; done.
  - intros s. destruct (env proc !! "PORT") as [p|].
    + case_bool_decide as Hp.
      * subst. split; [done|]. by intros [[= <-] ?].
      * split; [by intros [= <-] | by intros [[= <-] _]].
    + split; [done | by intros [? _]].
  - intros s. destruct (env proc !! "NODE_ENV") as [n|].
    + case_bool_decide as Hn.
      * subst. split.
        -- intros [= <-]. right. split; [done|]. by right.
        -- intros [[[= <-] ?] | [-> _]]; done.
      * split.
        -- intros [= <-]. by left.
        -- intros [[[= <-] _] | [_ [? | [= ?]]]]; done.
    + split.
      * intros [= <-]. right. split; [done|]. by left.
      * intros [[? _] | [-> _]]; done.
Qed.


(** ** The handler *)

Lemma arm_result_world `{NodeLib} (proc : process) (a : arm) (req : request)
    (pathname : value) (res : response) (w : world) :
  ∃ k, (arm_result proc a req pathname res w).2
       = after k (log_line req pathname w) w.
Proof. destruct a; simpl; eauto. Qed.

Lemma arm_result_complete `{NodeLib} (proc : process) (a : arm) (req : request)
    (pathname : value) (res : response) (w : world) :
  complete_response (arm_result proc a req pathname res w).1.
Proof.
  unfold complete_response.
  destruct a; simpl; rewrite !lookup_insert_ne by done;
    rewrite cors_origin, cors_methods, cors_headers, lookup_insert_eq;
    repeat split; eauto.
Qed.

(** X2: a request whose target [url.parse] accepts is logged in one line
    on [stdout], before it is answered: the timestamp of the handler's
    first clock reading, the method, the pathname and the user agent,
    "undefined" standing for a missing user-agent header; on ["/"] the
    page shows that same timestamp.  Nothing goes to [stderr].  A request
    whose target [url.parse] rejects is not logged at all. *)
Theorem request_log `{NodeLib} (proc : process) (req : request)
    (res : response) (w : world) :
  match url_parse_pathname (url req) with
  | Normal pathname =>
      ∃ res' w' timestamp agent,
        handler proc req res w = (Return res', w') ∧
        timestamp = Date_toISOString (now (timeline w (tick w))) ∧
        agent = default "undefined" (req_headers req !! "user-agent") ∧
        stdout w' = stdout w ++ [timestamp +:+ " - " +:+ method req +:+ " " +:+
                                 ToString pathname +:+ " - " +:+ agent] ∧
        stderr w' = stderr w ∧
        (pathname = VStr "/" →
         body res' = Some (page (ToString (environment proc)) timestamp))
  | Abrupt e =>
      ∃ w', handler proc req res w = (Throw e, w') ∧
            stdout w' = stdout w ∧ stderr w' = stderr w
  end.
Proof.
  destruct (url_parse_pathname (url req)) as [pathname|e] eqn:Hparse.
  - rewrite (handler_returns proc req res w pathname Hparse).
    eexists _, _, _, _. split; [reflexivity|]. split; [reflexivity|].
    split; [reflexivity|].
    destruct (arm_result_world proc (switch_arm pathname) req pathname res w)
      as [k ->].
    split; [|split; [done|]].
    + simpl. unfold log_line, reading. simpl.
      by destruct (req_headers req !! "user-agent").
    + intros ->. reflexivity.
  - rewrite (handler_throws proc req res w e Hparse). by eexists.
Qed.

(** X3: the response to a request whose target [url.parse] accepts, made
    from a fresh response object: it is ended with a body; its status is
    404 when the pathname is none of "/", "/health" and "/info", and 200
    otherwise; it has the three CORS headers and Content-Type and no
    other header; Content-Type is text/html for "/" and application/json
    for every other pathname. *)
Theorem response_shape `{NodeLib} (proc : process) (req : request) (w : world)
    (pathname : value) :
  url_parse_pathname (url req) = Normal pathname →
  ∃ res' w',
    handler proc req fresh_response w = (Return res', w') ∧
    is_Some (body res') ∧
    (statusCode res' = 200 ∨ statusCode res' = 404) ∧
    (statusCode res' = 404 ↔
       pathname ≠ VStr "/" ∧ pathname ≠ VStr "/health" ∧ pathname ≠ VStr "/info") ∧
    dom (headers res') =
      ({[ "Access-Control-Allow-Origin"; "Access-Control-Allow-Methods";
          "Access-Control-Allow-Headers"; "Content-Type" ]} : gset string) ∧
    (headers res' !! "Content-Type" = Some "text/html" ↔ pathname = VStr "/") ∧
    (headers res' !! "Content-Type" = Some "application/json" ↔
       pathname ≠ VStr "/").
Proof.
  intros Hparse.
  rewrite (handler_returns proc req fresh_response w pathname Hparse).
  eexists _, _. split; [reflexivity|].
  rewrite <- switch_arm_default, <- switch_arm_root.
  destruct (switch_arm pathname) eqn:Harm; simpl;
    rewrite lookup_insert_eq; unfold cors;
    rewrite !dom_insert_L, dom_empty_L;
    (split; [by eexists|]);
    (split; [by (left + right)|]);
    (split; [done|]);
    (split; [set_solver|]); split; split; done.
Qed.

Lemma response_shape_witness :
  ∃ res' w',
    handler (H := Ref.lib) Example.proc_server (Example.get "/health/")
            fresh_response Example.w0 = (Return res', w') ∧
    is_Some (body res') ∧
    (statusCode res' = 200 ∨ statusCode res' = 404) ∧
    (statusCode res' = 404 ↔
       VStr "/health/" ≠ VStr "/" ∧ VStr "/health/" ≠ VStr "/health" ∧
       VStr "/health/" ≠ VStr "/info") ∧
    dom (headers res') =
      ({[ "Access-Control-Allow-Origin"; "Access-Control-Allow-Methods";
          "Access-Control-Allow-Headers"; "Content-Type" ]} : gset string) ∧
    (headers res' !! "Content-Type" = Some "text/html" ↔
       VStr "/health/" = VStr "/") ∧
    (headers res' !! "Content-Type" = Some "application/json" ↔
       VStr "/health/" ≠ VStr "/").
Proof.
  apply (response_shape (H := Ref.lib) Example.proc_server
           (Example.get "/health/") Example.w0 (VStr "/health/")).
  vm_compute. reflexivity.
Defined.

(** ** The server *)

(** Nothing is delivered to a process that has ended. *)
Lemma ended_is_final `{NodeLib} (proc : process) (s : pstate) (ev : event) :
  run_status s ≠ Running → deliver proc ev s = None.
Proof. intros Hst. unfold deliver. by destruct (run_status s). Qed.

(** X4: the handler does not catch what [url.parse] throws.  A request
    whose target [url.parse] rejects, arriving on an open connection of
    a running server, ends the process by the uncaught exception (status
    1 for the parent): no response is made, nothing is printed, and no
    later event is handled. *)
Theorem rejected_target_ends_process `{NodeLib} (proc : process) (s : pstate)
    (req : request) (e : error) :
  run_status s = Running → srv_listen s = None → srv_conns s ≠ 0%nat →
  url_parse_pathname (url req) = Abrupt e →
  ∃ s', deliver proc (EvRequest req) s = Some s' ∧
        run_status s' = Crashed e ∧
        exit_status (run_status s') = Some 1 ∧
        sent s' = sent s ∧
        stdout (the_world s') = stdout (the_world s) ∧
        stderr (the_world s') = stderr (the_world s) ∧
        ∀ ev, deliver proc ev s' = None.
Proof.
  intros Hst Hl Hn Hparse.
  destruct (srv_conns s) as [|n] eqn:Hconns; [done|].
  rewrite (deliver_request proc s req n Hst Hl Hconns).
  unfold serve, bind, in_world, zoom.
  rewrite (handler_throws proc req fresh_response _ e Hparse). simpl.
  eexists. split; [reflexivity|]. simpl.
  repeat split; try done; intros ev; by apply ended_is_final.
Qed.

Lemma rejected_target_ends_process_witness :
  let s := Example.run Example.proc_server
             [EvListening (Tcp 49152); EvConnection] in
  let req := Example.get "http://%E0%A4%A@example.com/" in
  ∃ s', deliver (H := Ref.lib) Example.proc_server (EvRequest req) s = Some s' ∧
        run_status s' = Crashed (Error "Error" "target outside the fast path of url.parse") ∧
        exit_status (run_status s') = Some 1 ∧
        sent s' = sent s ∧
        stdout (the_world s') = stdout (the_world s) ∧
        stderr (the_world s') = stderr (the_world s) ∧
        ∀ ev, deliver (H := Ref.lib) Example.proc_server ev s' = None.
Proof.
  intros s req.
  apply (rejected_target_ends_process (H := Ref.lib) Example.proc_server s req).
  - vm_compute. reflexivity.
  - vm_compute. reflexivity.
  - vm_compute. discriminate.
  - vm_compute. reflexivity.
Defined.

(** X5: the lines printed when the server of server mode is bound: the
    address is written with the configured [port], whatever the port the
    server is bound to (with PORT set to "0" the line reads
    [http://localhost:0/]), then come the environment name and the
    version of the runtime. *)
Theorem banner_shows_configured_port `{NodeLib} (proc : process) (w : world)
    (asked bound : address) :
  ¬ test_mode proc →
  listen_target (port proc) = Normal asked →
  bound_ok asked bound = true →
  ∃ s, deliver proc (EvListening bound) (boot proc w) = Some s ∧
       run_status s = Running ∧
       srv_handle s = Some bound ∧
       stdout (the_world s) =
         stdout w ++ ["🚀 Server running at http://localhost:" +:+
                        ToString (port proc) +:+ "/";
                      "Environment: " +:+ ToString (environment proc);
                      "Node.js version: " +:+ version proc] ∧
       stderr (the_world s) = stderr w.
Proof.
  intros Hmode Hport Hbound.
  rewrite (boot_server proc w asked Hmode Hport).
  rewrite (deliver_listening proc _ asked CbListening bound) by done.
  unfold call_listening. rewrite on_listening_run.
  eexists. split; [reflexivity|]. simpl. repeat split; try done.
  by rewrite <- !app_assoc.
Qed.

Lemma banner_shows_configured_port_witness :
  ∃ s, deliver (H := Ref.lib) Example.proc_server (EvListening (Tcp 49152))
               (boot (H := Ref.lib) Example.proc_server Example.w0) = Some s ∧
       run_status s = Running ∧
       srv_handle s = Some (Tcp 49152) ∧
       stdout (the_world s) =
         stdout Example.w0 ++
           ["🚀 Server running at http://localhost:" +:+ "0" +:+ "/";
            "Environment: " +:+ "development";
            "Node.js version: " +:+ "v20.11.0"] ∧
       stderr (the_world s) = stderr Example.w0.
Proof.
  apply (banner_shows_configured_port (H := Ref.lib) Example.proc_server
           Example.w0 (Tcp 0) (Tcp 49152)).
  - unfold test_mode. vm_compute. discriminate.
  - vm_compute. reflexivity.
  - vm_compute. reflexivity.
Defined.

(** The script leaves its top level running only with the server asked
    to listen, and nothing observed yet. *)
Lemma boot_running `{NodeLib} (proc : process) (w : world) :
  run_status (boot proc w) = Running →
  ∃ a cb, srv_listen (boot proc w) = Some (a, cb) ∧ trace (boot proc w) = [] ∧
          stderr (the_world (boot proc w)) = stderr w.
Proof.
  destruct (decide (test_mode proc)) as [Hmode | Hmode].
  - destruct (listen_target (num 0)) as [a|e] eqn:Hport.
    + rewrite (boot_test proc w a Hmode Hport). by eexists _, _.
    + by rewrite (boot_test_refused proc w e Hmode Hport).
  - destruct (listen_target (port proc)) as [a|e] eqn:Hport.
    + rewrite (boot_server proc w a Hmode Hport). by eexists _, _.
    + by rewrite (boot_server_refused proc w e Hmode Hport).
Qed.

(** X6: the server has no ['error'] listener.  In either mode, when the
    server cannot be bound (the port is in use, say), the process dies
    of the uncaught exception: status 1 for the parent, nothing printed
    by the script, no connection ever accepted, and in the self-test no
    request sent. *)
Theorem bind_failure_is_uncaught `{NodeLib} (proc : process) (w : world)
    (err : error) :
  run_status (boot proc w) = Running →
  ∃ s, deliver proc (EvListenError err) (boot proc w) = Some s ∧
       run_status s = Crashed err ∧
       exit_status (run_status s) = Some 1 ∧
       the_world s = the_world (boot proc w) ∧
       stderr (the_world s) = stderr w ∧
       srv_handle s = srv_handle (boot proc w) ∧
       http_pending s = http_pending (boot proc w) ∧
       trace s = [] ∧
       ∀ ev, deliver proc ev s = None.
Proof.
  intros Hst.
  destruct (boot_running proc w Hst) as (a & cb & Hl & Ht & Herr).
  unfold deliver at 1. rewrite Hst, Hl.
  eexists. split; [reflexivity|]. simpl.
  repeat split; try done; intros ev; by apply ended_is_final.
Qed.

Lemma bind_failure_is_uncaught_witness :
  let err := Error "Error" "listen EADDRINUSE: address already in use :::3000" in
  let proc := Process ∅ ["node"; "app.js"] "v20.11.0" "linux" "x64" 4242 in
  ∃ s, deliver (H := Ref.lib) proc (EvListenError err)
               (boot (H := Ref.lib) proc Example.w0) = Some s ∧
       run_status s = Crashed err ∧
       exit_status (run_status s) = Some 1 ∧
       the_world s = the_world (boot (H := Ref.lib) proc Example.w0) ∧
       stderr (the_world s) = stderr Example.w0 ∧
       srv_handle s = srv_handle (boot (H := Ref.lib) proc Example.w0) ∧
       http_pending s = http_pending (boot (H := Ref.lib) proc Example.w0) ∧
       trace s = [] ∧
       ∀ ev, deliver (H := Ref.lib) proc ev s = None.
Proof.
  intros err proc.
  apply (bind_failure_is_uncaught (H := Ref.lib) proc Example.w0 err).
  vm_compute. reflexivity.
Defined.

(** ** Runs *)

Section Runs.
Context `{NodeLib}.
Variable proc : process.

(** The state the top level leaves: no response sent, no client request
    made, nothing observed. *)
Lemma boot_fresh (w : world) :
  sent (boot proc w) = [] ∧ http_pending (boot proc w) = [] ∧
  trace (boot proc w) = [] ∧ srv_handle (boot proc w) = None.
Proof.
  destruct (decide (test_mode proc)) as [Hmode | Hmode].
  - destruct (listen_target (num 0)) as [a|e] eqn:Hport.
    + by rewrite (boot_test proc w a Hmode Hport).
    + by rewrite (boot_test_refused proc w e Hmode Hport).
  - destruct (listen_target (port proc)) as [a|e] eqn:Hport.
    + by rewrite (boot_server proc w a Hmode Hport).
    + by rewrite (boot_server_refused proc w e Hmode Hport).
Qed.

(** A run does not go on from a state that is not running. *)
Lemma exec_ended (evs : list event) (s s' : pstate) :
  run_status s ≠ Running → exec proc evs s = Some s' → evs = [] ∧ s' = s.
Proof.
  intros Hst Hx. destruct evs as [|ev evs]; simpl in Hx.
  - by simplify_eq.
  - by rewrite (ended_is_final proc s ev Hst) in Hx.
Qed.

(** The response made for a request, or none when the target is
    rejected. *)
Lemma serve_answers (req : request) (s : pstate) :
  match url_parse_pathname (url req) with
  | Normal _ =>
      ∃ res s1, serve proc req s = (Return tt, s1) ∧
                sent s1 = sent s ++ [res] ∧ answers req res ∧
                run_status s1 = run_status s
  | Abrupt e =>
      ∃ s1, serve proc req s = (Throw e, s1) ∧ sent s1 = sent s
  end.
Proof.
  destruct (url_parse_pathname (url req)) as [pathname|e] eqn:Hparse.
  - rewrite (serve_returns proc req s pathname Hparse).
    pose proof (arm_result_complete proc (switch_arm pathname) req pathname
                  fresh_response (the_world s)) as Hc.
    assert (statusCode (arm_result proc (switch_arm pathname) req pathname
                          fresh_response (the_world s)).1 = 404
            ↔ switch_arm pathname = ArmDefault) as H404
      by (by destruct (switch_arm pathname)).
    destruct (arm_result _ _ _ _ _ _) as [res w']. simpl in *.
    eexists res, _. split; [reflexivity|]. simpl. split; [done|].
    split; [|done]. exists pathname. split; [done|]. split; [done|].
    by rewrite <- switch_arm_default.
  - unfold serve, bind, in_world, zoom.
    rewrite (handler_throws proc req fresh_response _ e Hparse). by eexists.
Qed.

(** What one event does to the list of responses. *)
Lemma sent_step (s s' : pstate) (ev : event) :
  wired s → deliver proc ev s = Some s' →
  match ev with
  | EvRequest req =>
      (∃ res, sent s' = sent s ++ [res] ∧ answers req res ∧
              run_status s' = Running) ∨
      (sent s' = sent s ∧ crashed s')
  | _ => sent s' = sent s
  end.
Proof.
  intros [Hsig Hbound] Hd. unfold deliver in Hd.
  destruct (run_status s) eqn:Hst; [|done|done].
  destruct (srv_listen s) as [[asked cb]|] eqn:Hl.
  - destruct ev; try done.
    + destruct (bound_ok asked bound); [|done]. simplify_eq.
      destruct cb; unfold call_listening.
      * by rewrite on_listening_run.
      * unfold on_test_listening, bind, server_address_port, gets, http_get,
          modify, ret. simpl. by destruct bound.
    + by simplify_eq.
  - destruct ev as [bound|err| |req| | | |i sc data|i err]; try done.
    + destruct (srv_handle s); [|done]. by simplify_eq.
    + destruct (srv_conns s); [done|]. simplify_eq.
      pose proof (serve_answers req s) as Hserve.
      destruct (url_parse_pathname (url req)) as [pathname|e].
      * destruct Hserve as (res & s1 & -> & Hsent & Hans & Hrun).
        left. exists res. simpl. split; [done|]. split; [done|]. congruence.
      * destruct Hserve as (s1 & -> & Hsent). right. simpl.
        split; [done|]. by exists e.
    + destruct (srv_conns s); [done|]. by simplify_eq.
    + destruct (srv_closing s && _ && _); [|done]. simplify_eq.
      destruct (srv_close_listeners s) as [|[] cbs]; [done|].
      unfold call_all, call_close, bind. by rewrite on_server_closed_run.
    + rewrite Hsig in Hd. simplify_eq.
      unfold call_all, call_signal, bind. rewrite on_sigterm_run.
      unfold close_server. by destruct (srv_handle _).
    + destruct (http_pending s !! i) as [r|]; [|done]. simplify_eq.
      destruct (on_end r) as [addr_port|]; unfold call_response.
      * destruct (health_ok sc (JSON_parse data)) eqn:Hok.
        -- by rewrite on_health_end_pass by done.
        -- destruct (on_health_end_fail addr_port sc data
                       (set_pending (delete i (http_pending s)) s) Hok)
             as [message ->].
           unfold close_server. by destruct (srv_handle _).
      * destruct (info_ok sc (JSON_parse data)) eqn:Hok.
        -- rewrite on_info_end_pass by done.
           unfold close_server. by destruct (srv_handle _).
        -- destruct (on_info_end_fail sc data
                       (set_pending (delete i (http_pending s)) s) Hok)
             as [message ->].
           unfold close_server. by destruct (srv_handle _).
    + destruct (http_pending s !! i) as [r|]; [|done].
      destruct (on_error r) as [[]|]; simplify_eq.
      * unfold call_error. rewrite on_health_error_run.
        unfold close_server. by destruct (srv_handle _).
      * done.
Qed.

Lemma sent_exec (evs : list event) (s s' : pstate) :
  wired s → exec proc evs s = Some s' →
  ∃ rs, sent s' = sent s ++ rs ∧
        Forall2 answers (take (length rs) (requests evs)) rs ∧
        (¬ crashed s' → length rs = length (requests evs)).
Proof.
  revert s. induction evs as [|ev evs IH]; intros s Hw Hx.
  - simpl in Hx. simplify_eq. exists []. rewrite app_nil_r.
    split; [done|]. split; [constructor|done].
  - simpl in Hx. destruct (deliver proc ev s) as [s1|] eqn:Hd; [|done].
    pose proof (wired_step proc s s1 ev Hw Hd) as Hw1.
    pose proof (sent_step s s1 ev Hw Hd) as Hstep.
    destruct ev as [bound|err| |req| | | |i sc data|i err];
      try (destruct (IH s1 Hw1 Hx) as (rs & Hs & Ha & Hn);
           exists rs; by rewrite <- Hstep).
    destruct Hstep as [(res & Hsent & Hans & Hrun) | (Hsent & e & Hcr)].
    + destruct (IH s1 Hw1 Hx) as (rs & Hs & Ha & Hn).
      exists (res :: rs). rewrite Hs, Hsent, <- app_assoc. split; [done|].
      simpl. split; [by constructor|]. intros Hnc. by rewrite Hn.
    + destruct (exec_ended evs s1 s') as [-> ->]; [by rewrite Hcr|done|].
      exists []. rewrite app_nil_r. split; [done|]. split; [constructor|].
      intros []. by exists e.
Qed.

End Runs.

(** X8: over any run, in either mode, the responses sent are the
    answers to the requests received, in order: a response for each
    request as long as the process has not died of an exception, each
    complete (status 200 or 404, a body, the CORS headers, a content
    type), with status 404 exactly for the pathnames that are no
    route.  Nothing else the process does sends a response. *)
Theorem responses_in_order `{NodeLib} (proc : process) (w : world)
    (evs : list event) (s : pstate) :
  exec proc evs (boot proc w) = Some s →
  Forall2 answers (take (length (sent s)) (requests evs)) (sent s) ∧
  (length (sent s) ≤ length (requests evs))%nat ∧
  (¬ crashed s → Forall2 answers (requests evs) (sent s)).
Proof.
  intros Hx.
  destruct (sent_exec proc evs (boot proc w) s (wired_boot proc w) Hx)
    as (rs & Hs & Ha & Hn).
  destruct (boot_fresh proc w) as (Hnil & _). rewrite Hnil in Hs. simpl in Hs.
  subst rs. split; [done|]. split.
  - apply Forall2_length in Ha. rewrite length_take in Ha. lia.
  - intros Hnc. rewrite (Hn Hnc), firstn_all in Ha. done.
Qed.

Lemma responses_in_order_witness :
  let evs := [EvListening (Tcp 49152); EvConnection;
              EvRequest (Example.get "/health"); EvDisconnect; EvConnection;
              EvRequest (Example.get "/nowhere")] in
  let s := Example.run Example.proc_server evs in
  Forall2 (answers (H := Ref.lib)) (take (length (sent s)) (requests evs))
          (sent s) ∧
  (length (sent s) ≤ length (requests evs))%nat ∧
  (¬ crashed s → Forall2 (answers (H := Ref.lib)) (requests evs) (sent s)).
Proof.
  intros evs s.
  apply (responses_in_order (H := Ref.lib) Example.proc_server Example.w0 evs s).
  vm_compute. reflexivity.
Defined.

Section Quiet.
Context `{NodeLib}.
Variable proc : process.

(** Serving a request prints on [stdout] only. *)
Lemma serve_world (req : request) (s : pstate) :
  ∃ out, stdout (the_world (settle (serve proc req s)))
           = stdout (the_world s) ++ out ∧
         stderr (the_world (settle (serve proc req s))) = stderr (the_world s).
Proof.
  destruct (url_parse_pathname (url req)) as [pathname|e] eqn:Hparse.
  - rewrite (serve_returns proc req s pathname Hparse).
    destruct (arm_result_world proc (switch_arm pathname) req pathname
                fresh_response (the_world s)) as [k Hk].
    destruct (arm_result _ _ _ _ _ _) as [res w']. simpl in *. subst w'.
    simpl. by eexists [_].
  - unfold serve, bind, in_world, zoom.
    rewrite (handler_throws proc req fresh_response _ e Hparse). simpl.
    exists []. by rewrite app_nil_r.
Qed.

Lemma quiet_step (past : list event) (s s' : pstate) (ev : event) :
  serving past s → deliver proc ev s = Some s' →
  stderr (the_world s') = stderr (the_world s).
Proof.
  intros (Hsig & Hpend & Hphase) Hd. unfold deliver in Hd.
  destruct (run_status s) eqn:Hst; [|done|done].
  destruct (srv_listen s) as [[asked cb]|] eqn:Hl.
  - destruct (srv_handle s) eqn:Hh; [done|]. destruct Hphase as (-> & _).
    destruct ev; try done.
    + destruct (bound_ok asked bound); [|done]. simplify_eq.
      unfold call_listening. by rewrite on_listening_run.
    + by simplify_eq.
  - destruct ev as [bound|err| |req| | | |i sc data|i err]; try done.
    + destruct (srv_handle s); [|done]. by simplify_eq.
    + destruct (srv_conns s); [done|]. simplify_eq.
      by destruct (serve_world req s) as (out & _ & ->).
    + destruct (srv_conns s); [done|]. by simplify_eq.
    + destruct (srv_closing s && _ && _); [|done]. simplify_eq.
      destruct (srv_close_listeners s) as [|[] cbs]; [done|].
      unfold call_all, call_close, bind. by rewrite on_server_closed_run.
    + rewrite Hsig in Hd. simplify_eq.
      unfold call_all, call_signal, bind. rewrite on_sigterm_run.
      unfold close_server. by destruct (srv_handle _).
    + by rewrite Hpend in Hd.
    + by rewrite Hpend in Hd.
Qed.

Lemma quiet_exec (evs past : list event) (s s' : pstate) :
  serving past s → exec proc evs s = Some s' →
  stderr (the_world s') = stderr (the_world s).
Proof.
  revert past s. induction evs as [|ev evs IH]; intros past s Hs Hx.
  - simpl in Hx. by simplify_eq.
  - simpl in Hx. destruct (deliver proc ev s) as [s1|] eqn:Hd; [|done].
    rewrite (IH (past ++ [ev]) s1); [|by apply (serving_step proc past s)|done].
    by apply (quiet_step past s s1 ev).
Qed.

End Quiet.

(** X7: what server mode never does.  Over any run of the server, the
    script writes nothing on [stderr], has no client request in flight,
    and does not leave by [process.exit] with a status other than 0: a
    status of failure can only come from an uncaught exception. *)
Theorem server_mode_quiet `{NodeLib} (proc : process) (w : world)
    (evs : list event) (s : pstate) :
  ¬ test_mode proc →
  exec proc evs (boot proc w) = Some s →
  stderr (the_world s) = stderr w ∧
  http_pending s = [] ∧
  (∀ code, run_status s = Exited code → code = 0) ∧
  (exit_status (run_status s) = Some 1 → crashed s).
Proof.
  intros Hmode Hx.
  pose proof (serving_boot proc w Hmode) as Hb.
  pose proof (serving_exec proc evs [] (boot proc w) s Hb Hx)
    as (_ & Hpend & Hphase).
  split; [|split; [done|split]].
  - rewrite (quiet_exec proc evs [] (boot proc w) s Hb Hx).
    destruct (listen_target (port proc)) as [a|e] eqn:Hport.
    + by rewrite (boot_server proc w a Hmode Hport).
    + by rewrite (boot_server_refused proc w e Hmode Hport).
  - intros code Hst. rewrite Hst in Hphase. by destruct Hphase as [-> _].
  - destruct (run_status s) as [|code|e] eqn:Hst; simpl; [done| |].
    + destruct Hphase as [-> _]. done.
    + intros _. by exists e.
Qed.

Lemma server_mode_quiet_witness :
  let s := Example.run Example.proc_server
             [EvListening (Tcp 49152); EvConnection;
              EvRequest (Example.get "/nowhere"); EvSigterm; EvDisconnect;
              EvClose] in
  stderr (the_world s) = stderr Example.w0 ∧
  http_pending s = [] ∧
  (∀ code, run_status s = Exited code → code = 0) ∧
  (exit_status (run_status s) = Some 1 → crashed s).
Proof.
  intros s.
  apply (server_mode_quiet (H := Ref.lib) Example.proc_server Example.w0
           [EvListening (Tcp 49152); EvConnection;
            EvRequest (Example.get "/nowhere"); EvSigterm; EvDisconnect;
            EvClose] s).
  - unfold test_mode. vm_compute. discriminate.
  - vm_compute. reflexivity.
Defined.

(** ** Signals *)

Section Signals.
Context `{NodeLib}.
Variable proc : process.

Lemma exec_app (evs1 evs2 : list event) (s : pstate) :
  exec proc (evs1 ++ evs2) s =
    match exec proc evs1 s with
    | Some s1 => exec proc evs2 s1
    | None => None
    end.
Proof.
  revert s. induction evs1 as [|ev evs1 IH]; intros s; simpl; [done|].
  by destruct (deliver proc ev s).
Qed.

Lemma sigterm_run (s : pstate) :
  run_status s = Running → srv_listen s = None →
  sigterm_listeners s = [CbSigterm] →
  deliver proc EvSigterm s =
    Some (close_server (Some CbServerClosed)
            (logged "Received SIGTERM, shutting down gracefully" s)).
Proof.
  intros Hst Hl Hsig. unfold deliver. rewrite Hst, Hl, Hsig.
  unfold call_all, call_signal, bind. by rewrite on_sigterm_run.
Qed.

(** Further signals while the server drains: each is logged, and
    nothing else changes for the outside. *)
Lemma sigterms_draining (k : nat) (s : pstate) :
  run_status s = Running → srv_listen s = None → srv_handle s = None →
  sigterm_listeners s = [CbSigterm] → srv_closing s = true →
  srv_close_listeners s ≠ [] →
  ∃ s', exec proc (replicate k EvSigterm) s = Some s' ∧
        run_status s' = Running ∧ srv_listen s' = None ∧
        srv_handle s' = None ∧ srv_closing s' = true ∧
        srv_close_listeners s' ≠ [] ∧ srv_conns s' = srv_conns s ∧
        trace s' = trace s ∧ sent s' = sent s ∧
        stdout (the_world s') =
          stdout (the_world s) ++
            replicate k "Received SIGTERM, shutting down gracefully" ∧
        stderr (the_world s') = stderr (the_world s).
Proof.
  revert s. induction k as [|k IH]; intros s Hst Hl Hh Hsig Hc Hcl.
  - exists s. simpl. by rewrite app_nil_r.
  - simpl. rewrite (sigterm_run s Hst Hl Hsig).
    set (s1 := close_server (Some CbServerClosed)
                 (logged "Received SIGTERM, shutting down gracefully" s)).
    assert (run_status s1 = Running ∧ srv_listen s1 = None ∧
            srv_handle s1 = None ∧ sigterm_listeners s1 = [CbSigterm] ∧
            srv_closing s1 = true ∧ srv_close_listeners s1 ≠ [] ∧
            srv_conns s1 = srv_conns s ∧ trace s1 = trace s ∧
            sent s1 = sent s ∧
            stdout (the_world s1) =
              stdout (the_world s) ++
                ["Received SIGTERM, shutting down gracefully"] ∧
            stderr (the_world s1) = stderr (the_world s))
      as (H1 & H2 & H3 & H4 & H5 & H6 & H7 & H8 & H9 & H10 & H11).
    { unfold s1, close_server. simpl. rewrite Hh. simpl. repeat split; try done.
      by destruct (srv_close_listeners s). }
    clearbody s1.
    destruct (IH s1 H1 H2 H3 H4 H5 H6)
      as (s' & Hx & ? & ? & ? & ? & ? & Hn & Ht & Hs & Hout & Herr).
    exists s'. repeat split; try congruence.
    by rewrite Hout, H10, <- app_assoc.
Qed.

(** A closing server with [n] connections left, with what it prints. *)
Lemma drain_output (n : nat) (s : pstate) :
  run_status s = Running → srv_listen s = None → srv_handle s = None →
  srv_closing s = true → srv_close_listeners s ≠ [] → srv_conns s = n →
  ∃ s', exec proc (replicate n EvDisconnect ++ [EvClose]) s = Some s' ∧
        run_status s' = Exited 0 ∧
        trace s' = trace s ++ replicate n ObsConnEnd ++ [ObsClosed; ObsExit 0] ∧
        sent s' = sent s ∧
        stdout (the_world s') = stdout (the_world s) ++ ["Server closed"] ∧
        stderr (the_world s') = stderr (the_world s).
Proof.
  revert s. induction n as [|n IH]; intros s Hst Hl Hh Hc Hcl Hn.
  - simpl. unfold deliver. rewrite Hst, Hl, Hc, Hh, Hn. simpl.
    destruct (srv_close_listeners s) as [|[] cbs]; [done|].
    unfold call_all, call_close, bind. rewrite on_server_closed_run.
    eexists. split; [reflexivity|]. simpl.
    split; [done|]. split; [by rewrite <- app_assoc|done].
  - simpl. unfold deliver at 1. rewrite Hst, Hl, Hn.
    destruct (IH (observe ObsConnEnd (set_conns n s)))
      as (s' & Hx & Hs' & Ht & Hsent & Hout & Herr); try done.
    exists s'. split; [done|]. split; [done|].
    rewrite Ht. simpl. by rewrite <- app_assoc.
Qed.

End Signals.

(** X9: signals in a row.  When the server of server mode accepts
    connections and SIGTERM arrives one or more times, the listening
    handle is closed once, by the first; every signal is logged; and
    when the open connections have ended the process exits with status
    0, having logged the closing of the server once.  No response is
    made on the way and nothing goes to [stderr]. *)
Theorem repeated_sigterm `{NodeLib} (proc : process) (w : world)
    (evs : list event) (s : pstate) (k : nat) :
  ¬ test_mode proc →
  exec proc evs (boot proc w) = Some s →
  run_status s = Running → is_Some (srv_handle s) →
  ∃ s', exec proc (replicate (S k) EvSigterm ++
                   replicate (srv_conns s) EvDisconnect ++ [EvClose]) s
          = Some s' ∧
        run_status s' = Exited 0 ∧
        trace s' = trace s ++ [ObsStopAccepting] ++
                   replicate (srv_conns s) ObsConnEnd ++ [ObsClosed; ObsExit 0] ∧
        sent s' = sent s ∧
        stdout (the_world s') =
          stdout (the_world s) ++
            replicate (S k) "Received SIGTERM, shutting down gracefully" ++
            ["Server closed"] ∧
        stderr (the_world s') = stderr (the_world s).
Proof.
  intros Hmode Hx Hst [h Hh].
  pose proof (serving_exec proc evs [] (boot proc w) s
                (serving_boot proc w Hmode) Hx) as (Hsig & _ & Hphase).
  rewrite Hst, Hh in Hphase.
  destruct (srv_listen s) as [[? ?]|] eqn:Hl; [done|].
  destruct Hphase as (Hc & Hcl & _).
  simpl. rewrite (sigterm_run proc s Hst Hl Hsig).
  set (s1 := close_server (Some CbServerClosed)
               (logged "Received SIGTERM, shutting down gracefully" s)).
  assert (run_status s1 = Running ∧ srv_listen s1 = None ∧
          srv_handle s1 = None ∧ sigterm_listeners s1 = [CbSigterm] ∧
          srv_closing s1 = true ∧ srv_close_listeners s1 ≠ [] ∧
          srv_conns s1 = srv_conns s ∧
          trace s1 = trace s ++ [ObsStopAccepting] ∧ sent s1 = sent s ∧
          stdout (the_world s1) =
            stdout (the_world s) ++
              ["Received SIGTERM, shutting down gracefully"] ∧
          stderr (the_world s1) = stderr (the_world s))
    as (H1 & H2 & H3 & H4 & H5 & H6 & H7 & H8 & H9 & H10 & H11).
  { unfold s1, close_server. simpl. rewrite Hh. simpl. rewrite Hcl.
    by repeat split. }
  clearbody s1. rewrite exec_app.
  destruct (sigterms_draining proc k s1 H1 H2 H3 H4 H5 H6)
    as (s2 & -> & G1 & G2 & G3 & G4 & G5 & G6 & G7 & G8 & G9 & G10).
  destruct (drain_output proc (srv_conns s) s2 G1 G2 G3 G4 G5)
    as (s3 & -> & F1 & F2 & F3 & F4 & F5); [congruence|].
  exists s3. split; [done|]. split; [done|].
  split; [by rewrite F2, G7, H8, <- app_assoc|].
  split; [congruence|].
  split; [|congruence].
  rewrite F4, G9, H10. simpl. by rewrite <- !app_assoc.
Qed.

Lemma repeated_sigterm_witness :
  let s := Example.run Example.proc_server
             [EvListening (Tcp 49152); EvConnection; EvConnection] in
  ∃ s', exec (H := Ref.lib) Example.proc_server
             (replicate 3 EvSigterm ++
              replicate (srv_conns s) EvDisconnect ++ [EvClose]) s
          = Some s' ∧
        run_status s' = Exited 0 ∧
        trace s' = trace s ++ [ObsStopAccepting] ++
                   replicate (srv_conns s) ObsConnEnd ++ [ObsClosed; ObsExit 0] ∧
        sent s' = sent s ∧
        stdout (the_world s') =
          stdout (the_world s) ++
            replicate 3 "Received SIGTERM, shutting down gracefully" ++
            ["Server closed"] ∧
        stderr (the_world s') = stderr (the_world s).
Proof.
  intros s.
  apply (repeated_sigterm (H := Ref.lib) Example.proc_server Example.w0
           [EvListening (Tcp 49152); EvConnection; EvConnection] s 2).
  - unfold test_mode. vm_compute. discriminate.
  - vm_compute. reflexivity.
  - vm_compute. reflexivity.
  - vm_compute. by eexists.
Defined.

(** ** The self-test, further *)

(** X13: a SIGTERM during the self-test.  The handler of SIGTERM is
    registered in both modes: when the signal arrives while the request
    to [/health] is in flight and the server has no connection, the
    server closes and the process exits with status 0, the status of a
    passed self-test, with no endpoint checked, no verdict printed and
    the request unanswered. *)
Theorem selftest_interrupted `{NodeLib} (proc : process) (w : world)
    (bound : Z) :
  test_mode proc →
  listen_target (num 0) = Normal (Tcp 0) →
  0 < bound ≤ 65535 →
  ∃ s, exec proc [EvListening (Tcp bound); EvSigterm; EvClose] (boot proc w)
         = Some s ∧
       run_status s = Exited 0 ∧
       stdout (the_world s) =
         stdout w ++ ["🧪 Running tests..."; "✅ Math test passed";
                      "Received SIGTERM, shutting down gracefully";
                      "Server closed"] ∧
       stderr (the_world s) = stderr w ∧
       http_pending s = [health_request (num bound)] ∧
       sent s = [] ∧
       trace s = [ObsBound (Tcp bound); ObsStopAccepting; ObsClosed; ObsExit 0].
Proof.
  intros Hmode Hzero Hbound. simpl.
  rewrite (selftest_listening proc w bound Hmode Hzero Hbound).
  rewrite (sigterm_run proc (test_started w bound)) by done.
  unfold deliver, close_server. simpl.
  eexists. split; [reflexivity|]. simpl. repeat split; try done.
  by rewrite <- !app_assoc.
Qed.

Lemma selftest_interrupted_witness :
  ∃ s, exec (H := Ref.lib) Example.proc_test
            [EvListening (Tcp 49152); EvSigterm; EvClose]
            (boot (H := Ref.lib) Example.proc_test Example.w0) = Some s ∧
       run_status s = Exited 0 ∧
       stdout (the_world s) =
         stdout Example.w0 ++
           ["🧪 Running tests..."; "✅ Math test passed";
            "Received SIGTERM, shutting down gracefully"; "Server closed"] ∧
       stderr (the_world s) = stderr Example.w0 ∧
       http_pending s = [health_request (H := Ref.lib) (num 49152)] ∧
       sent s = [] ∧
       trace s = [ObsBound (Tcp 49152); ObsStopAccepting; ObsClosed; ObsExit 0].
Proof.
  apply (selftest_interrupted (H := Ref.lib) Example.proc_test Example.w0 49152).
  - vm_compute. reflexivity.
  - vm_compute. reflexivity.
  - lia.
Defined.



Section Flights.
Context `{NodeLib}.
Variable proc : process.

(** The condition on the requests in flight stays true while the trace
    and [stdout] grow. *)
Lemma in_flight_grows (s s' : pstate) :
  http_pending s' = http_pending s →
  (∃ t, trace s' = trace s ++ t) →
  (∃ out, stdout (the_world s') = stdout (the_world s) ++ out) →
  in_flight s → in_flight s'.
Proof.
  intros Hp [t Ht] [out Ho]. unfold in_flight. rewrite Hp.
  destruct (http_pending s) as [|r [|]]; try done.
  intros (b & Hb & Hr). exists b. split.
  - rewrite Ht. by destruct (trace s).
  - destruct Hr as [? | [? Hin]]; [by left|right]. split; [done|].
    rewrite Ho. apply elem_of_app. by left.
Qed.

Ltac grown :=
  simpl;
  first [ by exists []; rewrite app_nil_r
        | by eexists [_]
        | by eexists [_; _]; rewrite <- ?app_assoc
        | by eexists [_; _; _]; rewrite <- ?app_assoc ].

Ltac unbound Hl := unfold starting; simpl; rewrite ?Hl; by intros [? ?].

Ltac framed s Hl :=
  split; [unbound Hl | apply (in_flight_grows s); [done | grown | grown | done]].

Lemma flights_step (s s' : pstate) (ev : event) :
  wired s → starting s → in_flight s → deliver proc ev s = Some s' →
  starting s' ∧ in_flight s'.
Proof.
  intros [Hsig Hbound] Hstart Hfl Hd. unfold deliver in Hd.
  destruct (run_status s) eqn:Hst; [|done|done].
  destruct (srv_listen s) as [[asked cb]|] eqn:Hl.
  - destruct Hstart as [Ht Hp]; [by eexists|].
    destruct ev; try done.
    + destruct (bound_ok asked bound); [|done]. simplify_eq.
      destruct cb; unfold call_listening.
      * rewrite on_listening_run. split; [unbound Hl|].
        unfold in_flight. simpl. by rewrite Hp.
      * unfold on_test_listening, bind, server_address_port, gets, http_get,
          modify, ret. simpl.
        destruct bound as [n|path]; simpl;
          (split; [unbound Hl|]); unfold in_flight; simpl;
          rewrite Hp, Ht; simpl; eexists; (split; [reflexivity|]); by left.
    + simplify_eq. split.
      * intros _. by simpl.
      * unfold in_flight. simpl. by rewrite Hp.
  - clear Hstart.
    destruct ev as [bound|err| |req| | | |i sc data|i err]; try done.
    + destruct (srv_handle s); [|done]. simplify_eq. framed s Hl.
    + destruct (srv_conns s); [done|]. simplify_eq.
      destruct (serve_world proc req s) as (out & Hout & _).
      destruct (serve_run proc req s) as (w' & l & st & Hs' & _).
      split.
      * rewrite Hs'. unbound Hl.
      * apply (in_flight_grows s); [by rewrite Hs'| |by exists out|done].
        rewrite Hs'. simpl. exists []. by rewrite app_nil_r.
    + destruct (srv_conns s); [done|]. simplify_eq. framed s Hl.
    + destruct (srv_closing s && _ && _); [|done]. simplify_eq.
      destruct (srv_close_listeners s) as [|[] cbs].
      * framed s Hl.
      * unfold call_all, call_close, bind. rewrite on_server_closed_run.
        framed s Hl.
    + rewrite Hsig in Hd. simplify_eq.
      unfold call_all, call_signal, bind. rewrite on_sigterm_run.
      unfold close_server. simpl. destruct (srv_handle s); framed s Hl.
    + destruct (http_pending s !! i) as [r|] eqn:Hr; [|done]. simplify_eq.
      unfold in_flight in Hfl.
      destruct (http_pending s) as [|r0 [|]] eqn:Hp; try done.
      destruct i as [|i]; [|done]. simpl in Hr. simplify_eq.
      destruct Hfl as (b & Hb & [-> | [-> Hin]]); unfold call_response; simpl.
      * destruct (health_ok sc (JSON_parse data)) eqn:Hok.
        -- rewrite on_health_end_pass by done. simpl.
           split; [unbound Hl|].
           unfold in_flight. simpl. exists b. split; [done|]. right.
           split; [done|]. apply elem_of_app. right.
           by apply list_elem_of_singleton.
        -- destruct (on_health_end_fail (port_of b) sc data
                       (set_pending [] s) Hok) as [message ->].
           unfold close_server. simpl.
           destruct (srv_handle s); (split; [unbound Hl | done]).
      * destruct (info_ok sc (JSON_parse data)) eqn:Hok.
        -- rewrite on_info_end_pass by done.
           unfold close_server. simpl.
           destruct (srv_handle s); (split; [unbound Hl | done]).
        -- destruct (on_info_end_fail sc data (set_pending [] s) Hok)
             as [message ->].
           unfold close_server. simpl.
           destruct (srv_handle s); (split; [unbound Hl | done]).
    + destruct (http_pending s !! i) as [r|] eqn:Hr; [|done].
      unfold in_flight in Hfl.
      destruct (http_pending s) as [|r0 [|]] eqn:Hp; try done.
      destruct i as [|i]; [|done]. simpl in Hr. simplify_eq.
      destruct (on_error r) as [[]|]; simplify_eq.
      * unfold call_error. rewrite on_health_error_run.
        unfold close_server. simpl.
        destruct (srv_handle s); (split; [unbound Hl | done]).
      * split; [unbound Hl | done].
Qed.

Lemma flights_exec (evs : list event) (s s' : pstate) :
  wired s → starting s → in_flight s → exec proc evs s = Some s' →
  in_flight s'.
Proof.
  revert s. induction evs as [|ev evs IH]; intros s Hw Hs Hf Hx.
  - simpl in Hx. by simplify_eq.
  - simpl in Hx. destruct (deliver proc ev s) as [s1|] eqn:Hd; [|done].
    destruct (flights_step s s1 ev Hw Hs Hf Hd) as [Hs1 Hf1].
    apply (IH s1); try done. by apply (wired_step proc s s1 ev).
Qed.

End Flights.

(** X11: the client requests of the script.  At any point of any run,
    in either mode, at most one request is in flight; it goes to
    [localhost] at the port of the address the server was bound to (not
    to [port]); it is the request to [/health], with its ['error']
    listener, or the request to [/info], with none, and this one only
    after the success of the first has been logged. *)
Theorem one_request_in_flight `{NodeLib} (proc : process) (w : world)
    (evs : list event) (s : pstate) :
  exec proc evs (boot proc w) = Some s →
  (length (http_pending s) ≤ 1)%nat ∧
  ∀ r, r ∈ http_pending s →
       ∃ b, head (trace s) = Some (ObsBound b) ∧
            ((target r = "http://localhost:" +:+ ToString (port_of b) +:+ "/health"
              ∧ on_error r = Some CbHealthError) ∨
             (target r = "http://localhost:" +:+ ToString (port_of b) +:+ "/info"
              ∧ on_error r = None
              ∧ "✅ Health endpoint test passed" ∈ stdout (the_world s))).
Proof.
  intros Hx.
  destruct (boot_fresh proc w) as (_ & Hp & Ht & _).
  assert (in_flight s) as Hfl.
  { apply (flights_exec proc evs (boot proc w) s);
      [apply wired_boot | by intros _ | unfold in_flight; by rewrite Hp | done]. }
  unfold in_flight in Hfl.
  destruct (http_pending s) as [|r0 [|]]; try done.
  - split; [simpl; lia|]. intros r Hr. by apply elem_of_nil in Hr.
  - split; [simpl; lia|]. intros r Hr.
    apply list_elem_of_singleton in Hr as ->.
    destruct Hfl as (b & Hb & [-> | [-> Hin]]); exists b; (split; [done|]).
    + by left.
    + by right.
Qed.

Lemma one_request_in_flight_witness :
  let s := Example.run Example.proc_test
             [EvListening (Tcp 49152); EvConnection;
              EvRequest (Example.get "/health");
              EvHttpEnd 0 200 Failure.health_body] in
  (length (http_pending s) ≤ 1)%nat ∧
  ∀ r, r ∈ http_pending s →
       ∃ b, head (trace s) = Some (ObsBound b) ∧
            ((target r = "http://localhost:" +:+
                         ToString (H := Ref.lib) (port_of b) +:+ "/health"
              ∧ on_error r = Some CbHealthError) ∨
             (target r = "http://localhost:" +:+
                         ToString (H := Ref.lib) (port_of b) +:+ "/info"
              ∧ on_error r = None
              ∧ "✅ Health endpoint test passed" ∈ stdout (the_world s))).
Proof.
  intros s.
  apply (one_request_in_flight (H := Ref.lib) Example.proc_test Example.w0
           [EvListening (Tcp 49152); EvConnection;
            EvRequest (Example.get "/health");
            EvHttpEnd 0 200 Failure.health_body] s).
  vm_compute. reflexivity.
Defined.

Section OwnAnswers.
Context `{NodeLib}.
Variable proc : process.

Local Arguments strict_eq : simpl never.
Local Arguments typeof : simpl never.

Lemma truthy_string (v : value) (a : string) :
  strict_eq v (VStr a) = true → a ≠ "" → truthy v = true.
Proof.
  intros Hv Ha. apply strict_eq_str in Hv as ->. simpl.
  by rewrite bool_decide_eq_false_2.
Qed.

(** The answer of the handler to [/health] passes the checks of the
    self-test. *)
Lemma own_health_passes (w : world) :
  reads_back (health_object proc w) = true →
  Date_toISOString (now (reading 1 w)) ≠ "" →
  health_ok 200 (JSON_parse (JSON_stringify (health_object proc w) 2)) = true.
Proof.
  unfold reads_back, health_ok, health_object. simpl.
  destruct (JSON_parse _) as [[| | | | | |fs']|]; try done.
  intros Hrb Hts.
  apply andb_prop in Hrb as [Hstatus Hrb].
  apply andb_prop in Hrb as [Htime Hrb].
  apply andb_prop in Hrb as [Hup _].
  rewrite Hstatus, Hup, (truthy_string _ _ Htime Hts). done.
Qed.

(** And the answer to [/info], on a platform with a name. *)
Lemma own_info_passes (w : world) :
  reads_back (info_object proc w) = true →
  platform proc ≠ "" →
  info_ok 200 (JSON_parse (JSON_stringify (info_object proc w) 2)) = true.
Proof.
  unfold reads_back, info_ok, info_object. simpl.
  destruct (JSON_parse _) as [[| | | | | |fs']|]; try done.
  intros Hrb Hpf.
  apply andb_prop in Hrb as [Hplatform _].
  by rewrite (truthy_string _ _ Hplatform Hpf).
Qed.

End OwnAnswers.

(** X12: the self-test against the server itself.  The server answers
    the request to [/health], the answer passes its checks, the server
    answers the request to [/info], that answer passes too, and the
    process exits with status 0, nothing written on [stderr], where
    [JSON.parse] reads back the two objects the handler serialized, the
    timestamp is not the empty string and the platform has a name: the
    self-test checks no more of the answers than the handler puts in
    them. *)
Theorem selftest_on_own_answers `{NodeLib} (proc : process) (w : world)
    (bound : Z) (hs1 hs2 : gmap string string) :
  test_mode proc →
  listen_target (num 0) = Normal (Tcp 0) →
  0 < bound ≤ 65535 →
  url_parse_pathname "/health" = Normal (VStr "/health") →
  url_parse_pathname "/info" = Normal (VStr "/info") →
  let req1 := Request "GET" "/health" hs1 in
  let req2 := Request "GET" "/info" hs2 in
  let w1 := w_started w in
  let body1 := JSON_stringify (health_object proc w1) 2 in
  let w2 := say "✅ Health endpoint test passed"
                (after 3 (log_line req1 (VStr "/health") w1) w1) in
  let body2 := JSON_stringify (info_object proc w2) 2 in
  reads_back (health_object proc w1) = true →
  reads_back (info_object proc w2) = true →
  Date_toISOString (now (reading 1 w1)) ≠ "" →
  platform proc ≠ "" →
  ∃ s, exec proc [EvListening (Tcp bound);
                  EvConnection; EvRequest req1; EvHttpEnd 0 200 body1;
                  EvConnection; EvRequest req2; EvHttpEnd 0 200 body2]
            (boot proc w) = Some s ∧
       run_status s = Exited 0 ∧
       body <$> sent s = [Some body1; Some body2] ∧
       statusCode <$> sent s = [200; 200] ∧
       stderr (the_world s) = stderr w ∧
       list.last (stdout (the_world s)) = Some "🎉 All tests passed successfully!".
Proof.
  intros Hmode Hzero Hbound Hp1 Hp2 req1 req2 w1 body1 w2 body2
    Hrb1 Hrb2 Hts Hpf.
  pose proof (own_health_passes proc w1 Hrb1 Hts) as Hok1.
  pose proof (own_info_passes proc w2 Hrb2 Hpf) as Hok2.
  cbn [exec].
  rewrite (selftest_listening proc w bound Hmode Hzero Hbound).
  rewrite (deliver_connection proc _ (Tcp bound)) by done.
  rewrite (deliver_request proc _ req1 0) by done.
  rewrite (serve_returns proc req1 _ (VStr "/health") Hp1).
  rewrite (proj2 (switch_arm_health _) eq_refl).
  cbn [arm_result settle].
  rewrite (deliver_http_end proc _ 0 (health_request (num bound))) by done.
  change (call_response (on_end (health_request (num bound))) 200 body1)
    with (on_health_end (num bound) 200 body1).
  rewrite on_health_end_pass by exact Hok1.
  cbn [settle].
  rewrite (deliver_connection proc _ (Tcp bound)) by done.
  rewrite (deliver_request proc _ req2 1) by done.
  rewrite (serve_returns proc req2 _ (VStr "/info") Hp2).
  rewrite (proj2 (switch_arm_info _) eq_refl).
  cbn [arm_result settle].
  rewrite (deliver_http_end proc _ 0 (info_request (num bound))) by done.
  change (call_response (on_end (info_request (num bound))) 200 body2)
    with (on_info_end 200 body2).
  rewrite on_info_end_pass by exact Hok2.
  eexists. split; [reflexivity|]. simpl.
  split; [done|]. split; [done|]. split; [done|]. split; [done|].
  by rewrite list.last_snoc.
Qed.

Lemma selftest_on_own_answers_witness :
  let proc := Example.proc_test in
  let agent := <["user-agent" := "node"]> (∅ : gmap string string) in
  let req1 := Request "GET" "/health" agent in
  let req2 := Request "GET" "/info" agent in
  let w1 := w_started Example.w0 in
  let body1 := JSON_stringify (NodeLib := Ref.lib)
                 (health_object (H := Ref.lib) proc w1) 2 in
  let w2 := say "✅ Health endpoint test passed"
                (after 3 (log_line (H := Ref.lib) req1 (VStr "/health") w1) w1) in
  let body2 := JSON_stringify (NodeLib := Ref.lib)
                 (info_object proc w2) 2 in
  ∃ s, exec (H := Ref.lib) proc
            [EvListening (Tcp 49152);
             EvConnection; EvRequest req1; EvHttpEnd 0 200 body1;
             EvConnection; EvRequest req2; EvHttpEnd 0 200 body2]
            (boot (H := Ref.lib) proc Example.w0) = Some s ∧
       run_status s = Exited 0 ∧
       body <$> sent s = [Some body1; Some body2] ∧
       statusCode <$> sent s = [200; 200] ∧
       stderr (the_world s) = stderr Example.w0 ∧
       list.last (stdout (the_world s)) = Some "🎉 All tests passed successfully!".
Proof.
  intros proc agent req1 req2 w1 body1 w2 body2.
  apply (selftest_on_own_answers (H := Ref.lib) proc Example.w0 49152
           agent agent).
  - vm_compute. reflexivity.
  - vm_compute. reflexivity.
  - lia.
  - vm_compute. reflexivity.
  - vm_compute. reflexivity.
  - vm_compute. reflexivity.
  - vm_compute. reflexivity.
  - vm_compute. discriminate.
  - vm_compute. discriminate.
Defined.

Section CheckOrder.
Context `{NodeLib}.

Local Arguments strict_eq : simpl never.
Local Arguments num : simpl never.





End CheckOrder.



(** ** Starting *)

(** X15: [port] goes to [server.listen] as it is.  In server mode, when
    [listen] refuses it (a number out of range, say), the exception is
    not caught: the process ends at the top level of the script, with
    nothing printed, no server bound, and status 1 for the parent. *)
Theorem refused_port_ends_start `{NodeLib} (proc : process) (w : world)
    (e : error) :
  ¬ test_mode proc →
  listen_target (port proc) = Abrupt e →
  run_status (boot proc w) = Crashed e ∧
  exit_status (run_status (boot proc w)) = Some 1 ∧
  the_world (boot proc w) = w ∧
  srv_listen (boot proc w) = None ∧
  srv_handle (boot proc w) = None ∧
  ∀ evs s, exec proc evs (boot proc w) = Some s → evs = [].
Proof.
  intros Hmode Hport.
  rewrite (boot_server_refused proc w e Hmode Hport). simpl.
  repeat split; try done.
  intros evs s Hx. by apply exec_ended in Hx as [-> _].
Qed.

Lemma refused_port_ends_start_witness :
  let proc := Process (<["PORT" := "70000"]> ∅) ["node"; "app.js"]
                      "v20.11.0" "linux" "x64" 4242 in
  run_status (boot (H := Ref.lib) proc Example.w0) = Crashed Ref.bad_port ∧
  exit_status (run_status (boot (H := Ref.lib) proc Example.w0)) = Some 1 ∧
  the_world (boot (H := Ref.lib) proc Example.w0) = Example.w0 ∧
  srv_listen (boot (H := Ref.lib) proc Example.w0) = None ∧
  srv_handle (boot (H := Ref.lib) proc Example.w0) = None ∧
  ∀ evs s, exec (H := Ref.lib) proc evs (boot (H := Ref.lib) proc Example.w0)
             = Some s → evs = [].
Proof.
  intros proc.
  apply (refused_port_ends_start (H := Ref.lib) proc Example.w0 Ref.bad_port).
  - unfold test_mode. vm_compute. discriminate.
  - vm_compute. reflexivity.
Defined.
